(** * Style properties of the Textual CSS layer

    A shallow embedding of [src/textual/css/_style_properties.py]: the
    descriptors through which a [Styles] object accepts loosely typed
    values, normalises them, stores them in its rule store and asks the
    owning node to refresh.

    Python values are a tagged union ([PyVal]); a descriptor's [__set__]
    is a computation in a state-and-exception monad over the interpreter
    state ([State]): the rule store of the [Styles] object, the heap of
    mutable dictionaries, and the chronological log of the calls made on
    the rule-store and refresh collaborators. *)

From Stdlib Require Import QArith ZArith String Ascii List Lia.
From Stdlib Require Import Floats.
From stdpp Require Import gmap strings list.

Import ListNotations.
Set Warnings "-register-all,-inexact-float".
Local Open Scope string_scope.
Local Open Scope list_scope.

(** ** Python string methods used by the module

    Strings are sequences of 8-bit characters (code points below 256). *)
Module PyStr.

(** [str.isspace] on one character: the ASCII white space, the
    separators 0x1c-0x1f, NEL (0x85) and the no-break space (0xa0). *)
Definition isspace (c : ascii) : bool :=
  let n := nat_of_ascii c in
  (Nat.leb 9 n && Nat.leb n 13) || (Nat.leb 28 n && Nat.leb n 32)
  || Nat.eqb n 133 || Nat.eqb n 160.

(** [str.lower] on one character (A-Z, and the Latin-1 capitals). *)
Definition lower_char (c : ascii) : ascii :=
  let n := nat_of_ascii c in
  if (Nat.leb 65 n && Nat.leb n 90)
     || (Nat.leb 192 n && Nat.leb n 222 && negb (Nat.eqb n 215))
  then ascii_of_nat (n + 32) else c.

Fixpoint lower (s : string) : string :=
  match s with
  | EmptyString => EmptyString
  | String c s' => String (lower_char c) (lower s')
  end.

Fixpoint lstrip (s : string) : string :=
  match s with
  | EmptyString => EmptyString
  | String c s' => if isspace c then lstrip s' else s
  end.

(** Drops the trailing white space: a character is kept when it is not
    white space or when something is kept after it. *)
Fixpoint rstrip (s : string) : string :=
  match s with
  | EmptyString => EmptyString
  | String c s' =>
      match rstrip s' with
      | EmptyString => if isspace c then EmptyString else String c EmptyString
      | r => String c r
      end
  end.

(** [s.strip()] *)
Definition strip (s : string) : string := rstrip (lstrip s).

(** [s.split(sep)] for a one-character separator: every occurrence
    splits, so consecutive separators give empty tokens and the empty
    string gives one empty token. *)
Fixpoint split (sep : ascii) (s : string) : list string :=
  match s with
  | EmptyString => [EmptyString]
  | String c s' =>
      if Ascii.eqb c sep then EmptyString :: split sep s'
      else match split sep s' with
           | [] => [String c EmptyString]
           | w :: ws => String c w :: ws
           end
  end.

(** [s.endswith(suffix)] *)
Fixpoint endswith (s suffix : string) : bool :=
  String.eqb s suffix ||
  match s with
  | EmptyString => false
  | String _ s' => endswith s' suffix
  end.

(** The characters of a string, as iteration over it yields them. *)
Fixpoint chars (s : string) : list string :=
  match s with
  | EmptyString => []
  | String c s' => String c EmptyString :: chars s'
  end.

End PyStr.

(** ** Domain values *)

(** Modelled from the spec: the [Unit] enumeration of [scalar.py], which is
    not part of the sources at hand; the module names [CELLS], [WIDTH] and
    [HEIGHT], and a scalar [is_percent] when its unit is [PERCENT]. *)
Inductive Unit : Set :=
| CELLS | FRACTION | PERCENT | WIDTH | HEIGHT | VIEW_WIDTH | VIEW_HEIGHT.

#[global] Instance Unit_eq_dec : EqDecision Unit.
Proof. solve_decision. Defined.

(** Modelled from the spec: the keys of [UNIT_SYMBOL] of [scalar.py], which
    is not part of the sources at hand: [{*UNIT_SYMBOL}] is every unit. *)
Definition UNIT_SYMBOL_keys : list Unit :=
  [CELLS; FRACTION; PERCENT; WIDTH; HEIGHT; VIEW_WIDTH; VIEW_HEIGHT].

(** ** Python floats

    A Python float is an IEEE 754 double: Rocq's primitive [float]. *)

(** What a float stands for: not a number, an infinity, or a rational. *)
Inductive FloatVal : Type :=
| FNaN
| FInf (negative : bool)
| FFin (q : Q).

Definition float_val (f : float) : FloatVal :=
  match Prim2SF f with
  | S754_zero _ => FFin 0
  | S754_infinity s => FInf s
  | S754_nan => FNaN
  | S754_finite s m e =>
      FFin (inject_Z (if s then Z.neg m else Z.pos m) * Qpower 2 e)
  end.

(** [a < b] between two such values, as IEEE 754 and Python have it: false
    as soon as one side is not a number. *)
Definition val_lt (a b : FloatVal) : bool :=
  match a, b with
  | FNaN, _ | _, FNaN => false
  | _, FInf true => false
  | FInf true, _ => true
  | FInf false, _ => false
  | FFin _, FInf false => true
  | FFin x, FFin y => match Qcompare x y with Lt => true | _ => false end
  end.

(** [float(z)] of an int: the nearest double, ties to even; [None] is the
    [OverflowError] of an int too large for a double. *)
Definition float_of_Z (z : Z) : option float :=
  match binary_normalize prec emax z 0 false with
  | S754_infinity _ => None
  | sf => Some (SF2Prim sf)
  end.

(** [Scalar(value, unit, percent_unit)], as the module builds and reads it
    (the class is in [scalar.py]). *)
Module Scalar.

Record t : Set := mk {
  value : float;
  unit : Unit;
  percent_unit : Unit
}.

Definition is_percent (s : t) : bool := bool_decide (unit s = PERCENT).

End Scalar.

(** [rich.color.Color], a named tuple of four fields. *)
Record Color : Set := mkColor {
  color_name : string;
  color_type : Z;
  color_number : option Z;
  color_triplet : option (Z * Z * Z)
}.

(** [Color.default()] *)
Definition Color_default : Color := mkColor "default" 0 None None.

(** [rich.style.Style]: the two colours and the attributes that are set,
    each with its truth value. *)
Record Style : Set := mkStyle {
  style_color : option Color;
  style_bgcolor : option Color;
  style_attributes : list (string * bool)
}.

(** [Style.null()] *)
Definition Style_null : Style := mkStyle None None [].

(** [style.without_color]: the style with its colors removed. *)
Definition without_color (s : Style) : Style :=
  mkStyle None None (style_attributes s).

(** [bool(style)]: a style is false when nothing is set in it. *)
Definition Style_bool (s : Style) : bool :=
  match style_color s, style_bgcolor s, style_attributes s with
  | None, None, [] => false
  | _, _, _ => true
  end.

(** [bool(style.without_color)]: [rich] hands out its null style for a
    null style and otherwise a copy it marks as not null, so the copy is
    true exactly when the style itself is. *)
Definition without_color_bool (s : Style) : bool := Style_bool s.

(** Whether a style carries attribute [a] switched on. *)
Definition style_has (a : string) (s : Style) : bool :=
  existsb (fun p => String.eqb (fst p) a && snd p) (style_attributes s).

(** Objects this layer stores without looking inside: layout algorithms,
    dock groups, transitions. They are told apart by identity. *)
Definition Opaque := N.

(** Addresses of mutable dictionaries. *)
Definition loc := nat.

(** Python values that reach the descriptors. Tuples and lists are held by
    value; dictionaries by reference into the heap, since they are mutable
    and a caller may keep a handle on one. *)
Inductive PyVal : Type :=
| VNone
| VInt (z : Z)
| VFloat (f : float)
| VStr (s : string)
| VUnit (u : Unit)
| VScalar (s : Scalar.t)
| VScalarOffset (x y : Scalar.t)
| VSpacing (top right bottom left : PyVal)
| VColor (c : Color)
| VStyle (s : Style)
| VLayout (o : Opaque)
| VObject (o : Opaque)
| VTuple (items : list PyVal)
| VList (items : list PyVal)
| VDict (l : loc).

(** A dictionary with string keys, in insertion order. *)
Definition Dict := list (string * PyVal).

Definition opt_int (o : option Z) : PyVal :=
  match o with Some z => VInt z | None => VNone end.

(** [isinstance(v, tuple)]: plain tuples and the named tuples ([Scalar],
    [ScalarOffset], [Spacing], [Color]); [Some] of the items when it is. *)
Definition tuple_items (v : PyVal) : option (list PyVal) :=
  match v with
  | VTuple items => Some items
  | VScalar s => Some [VFloat (Scalar.value s); VUnit (Scalar.unit s);
                     VUnit (Scalar.percent_unit s)]
  | VScalarOffset x y => Some [VScalar x; VScalar y]
  | VSpacing t r b l => Some [t; r; b; l]
  | VColor c =>
      Some [VStr (color_name c); VInt (color_type c); opt_int (color_number c);
            match color_triplet c with
            | Some (r, g, b) => VTuple [VInt r; VInt g; VInt b]
            | None => VNone
            end]
  | _ => None
  end.

Definition is_tuple (v : PyVal) : bool :=
  match tuple_items v with Some _ => true | None => false end.

(** ** Exceptions *)

(** What a [StyleValueError] reports. *)
Inductive ValueErrorKind : Type :=
| UnableToParseScalar
| ExpectedFloatScalarOrNone
| UnitsMustBeOneOf (name : string) (allowed : list Unit)
| Expected124Values
| MustBeOneOf (name : string) (allowed : list string)
| UnknownWord (word : string).

(** The exceptions the module raises or lets through. [Dangling] is not a
    Python exception: it is the model's answer to an address that holds no
    dictionary, which no state reached by a program has. *)
Inductive Exc : Type :=
| StyleValueError (kind : ValueErrorKind)
| StyleTypeError (name : string)
| ScalarParseError
| ColorParseError
| StyleSyntaxError
| MissingLayout
| PyValueError
| PyTypeError
| PyKeyError
| PyAttributeError
| PyOverflowError
| Dangling.

(** Modelled from the spec: the hierarchy of [errors.py], which is not part
    of the sources at hand: a [StyleValueError] is a [ValueError] and a
    [StyleTypeError] is a [TypeError]. *)
Definition is_ValueError (e : Exc) : bool :=
  match e with
  | StyleValueError _ | PyValueError => true
  | _ => false
  end.


Inductive Result (A : Type) : Type :=
| Ok (a : A)
| Raise (e : Exc).
Arguments Ok {A} a.
Arguments Raise {A} e.

(** ** Interpreter state *)

(** A call on one of the collaborators of the [Styles] object. *)
Inductive Call : Type :=
| Refresh (layout : bool)
| SetRule (name : string) (v : PyVal)
| ClearRule (name : string).

Record State : Type := mkState {
  rules : gmap string PyVal;
  heap : gmap loc Dict;
  calls : list Call
}.

Definition empty_state : State := mkState ∅ ∅ [].

(** Computations that read and write the state and may raise; what was
    done before an exception stays done. *)
Definition M (A : Type) : Type := State -> Result A * State.

Definition ret {A} (a : A) : M A := fun st => (Ok a, st).
Definition raise {A} (e : Exc) : M A := fun st => (Raise e, st).
Definition bind {A B} (m : M A) (k : A -> M B) : M B :=
  fun st => match m st with
            | (Ok a, st') => k a st'
            | (Raise e, st') => (Raise e, st')
            end.
Definition lift {A} (r : Result A) : M A := fun st => (r, st).

Declare Scope py_scope.
Delimit Scope py_scope with py.
Notation "'let*' x ':=' m 'in' k" := (bind m (fun x => k))
  (at level 10, x name, m at level 100, k at level 200) : py_scope.
Notation "m ;; k" := (bind m (fun _ => k))
  (at level 100, k at level 200, right associativity) : py_scope.
Local Open Scope py_scope.

Definition log (c : Call) : M unit :=
  fun st => (Ok tt, mkState (rules st) (heap st) (calls st ++ [c])).

(** ** The collaborators of a [Styles] object *)

(** Modelled from the spec: [get_rule] of the rule store of [styles.py],
    which is not part of the sources at hand: the store is a mapping from
    rule name to stored value; the lookup gives the stored value, or the
    default where the rule is absent. *)
Definition get_rule (name : string) (default : PyVal) : M PyVal :=
  fun st => (Ok (match rules st !! name with Some v => v | None => default end), st).

(** Modelled from the spec: [has_rule] of the same store: whether the
    mapping has an entry under the name. *)
Definition has_rule (name : string) : M bool :=
  fun st => (Ok (bool_decide (is_Some (rules st !! name))), st).

(** Modelled from the spec: [set_rule] of the same store: the value given
    is stored under the name; the store holds no null value (an unset rule
    is an absent one), so setting a rule to [None] leaves it absent. *)
Definition set_rule (name : string) (v : PyVal) : M unit :=
  fun st => (Ok tt, mkState (match v with
                             | VNone => delete name (rules st)
                             | _ => <[name := v]> (rules st)
                             end)
                            (heap st) (calls st ++ [SetRule name v])).

(** Modelled from the spec: [clear_rule] of the same store: the entry under
    the name is removed. *)
Definition clear_rule (name : string) : M unit :=
  fun st => (Ok tt, mkState (delete name (rules st)) (heap st)
                            (calls st ++ [ClearRule name])).

(** Modelled from the spec: [refresh] of the [Styles] object, which is not
    part of the sources at hand: [obj.refresh()] asks for a repaint and
    [obj.refresh(layout=True)] for a new layout as well; the scheduler is
    outside this layer, so the request is recorded and nothing else. *)
Definition refresh (layout : bool) : M unit := log (Refresh layout).

(** ** The heap of dictionaries *)

Definition alloc (d : Dict) : M loc :=
  fun st => let l := fresh (dom (heap st)) in
            (Ok l, mkState (rules st) (<[l := d]> (heap st)) (calls st)).

Definition deref (l : loc) : M Dict :=
  fun st => match heap st !! l with
            | Some d => (Ok d, st)
            | None => (Raise Dangling, st)
            end.

(** ** Python built-ins on values *)

(** Iteration, as tuple unpacking and [tuple(...)] perform it. *)
Definition py_iter (v : PyVal) : M (list PyVal) :=
  match tuple_items v with
  | Some items => ret items
  | None =>
      match v with
      | VList items => ret items
      | VStr s => ret (map VStr (PyStr.chars s))
      | VDict l => let* d := deref l in ret (map (fun kv => VStr (fst kv)) d)
      | _ => raise PyTypeError
      end
  end.

(** [len(v)] *)
Definition py_len (v : PyVal) : M nat :=
  match tuple_items v with
  | Some items => ret (length items)
  | None =>
      match v with
      | VList items => ret (length items)
      | VStr s => ret (String.length s)
      | VDict l => let* d := deref l in ret (length d)
      | _ => raise PyTypeError
      end
  end.

(** [v[0]] on a value whose length is one. *)
Definition py_getitem0 (v : PyVal) : M PyVal :=
  match v with
  | VDict _ => raise PyKeyError
  | _ => let* items := py_iter v in
         match items with
         | x :: _ => ret x
         | [] => raise PyKeyError
         end
  end.

(** [a, b = v] *)
Definition unpack2 (v : PyVal) : M (PyVal * PyVal) :=
  let* items := py_iter v in
  match items with
  | [a; b] => ret (a, b)
  | _ => raise PyValueError
  end.

(** [a, b, c, d = v] *)
Definition unpack4 (v : PyVal) : M (PyVal * PyVal * PyVal * PyVal) :=
  let* items := py_iter v in
  match items with
  | [a; b; c; d] => ret (a, b, c, d)
  | _ => raise PyValueError
  end.

(** [v.copy()]: dictionaries, lists and styles have the method. A
    dictionary's copy is a new dictionary with the same items. *)
Definition py_copy (v : PyVal) : M PyVal :=
  match v with
  | VDict l => let* d := deref l in let* l' := alloc d in ret (VDict l')
  | VList items => ret (VList items)
  | VStyle s => ret (VStyle s)
  | _ => raise PyAttributeError
  end.

(** [bool(v)]: the empty and zero values are false, a style is false when
    nothing is set in it, named tuples and other objects are true. *)
Definition py_bool (v : PyVal) : M bool :=
  match v with
  | VNone => ret false
  | VInt z => ret (negb (Z.eqb z 0))
  | VFloat f =>
      ret (match float_val f with FFin q => negb (Qeq_bool q 0) | _ => true end)
  | VStr s => ret (negb (String.eqb s ""))
  | VTuple items | VList items =>
      ret (match items with [] => false | _ => true end)
  | VDict l =>
      let* d := deref l in ret (match d with [] => false | _ => true end)
  | VStyle s => ret (Style_bool s)
  | _ => ret true
  end.

(** [a or b]: [a] when it is true, else [b]. *)
Definition py_or (a b : PyVal) : M PyVal :=
  let* t := py_bool a in ret (if t then a else b).

(** Whether [hash(v)] succeeds, as membership in a set of strings asks. *)
Fixpoint hashable (v : PyVal) : bool :=
  match v with
  | VList _ | VDict _ => false
  | VTuple items =>
      (fix all (l : list PyVal) : bool :=
         match l with
         | [] => true
         | x :: l' => hashable x && all l'
         end) items
  | VSpacing t r b l => hashable t && hashable r && hashable b && hashable l
  | _ => true
  end.

(** [value < bound] and [bound < value] between a float and an int, which
    Python compares exactly. *)
Definition float_lt_int (value : float) (bound : Z) : bool :=
  val_lt (float_val value) (FFin (inject_Z bound)).

Definition int_lt_float (bound : Z) (value : float) : bool :=
  val_lt (FFin (inject_Z bound)) (float_val value).

(** Modelled from the spec: [clamp] of [geometry.py], which is not part of
    the sources at hand, as the fractional setter calls it, with a float
    and two int bounds: the value brought into [minimum, maximum], which is
    the bound itself where the value is beyond it and the value where no
    comparison puts it outside. *)
Definition clamp (value : float) (minimum maximum : Z) : PyVal :=
  if float_lt_int value minimum then VInt minimum
  else if int_lt_float maximum value then VInt maximum
  else VFloat value.

(** ** Parsers and registries outside this layer

    The literal parsers of [rich] ([Color.parse], [Style.parse], [str] of a
    style), the lexical part of the scalar parser and the layout registry
    are collaborators; a parser answers [None] where it raises its error. *)
Class External : Type := {
  Color_parse : string -> option Color;
  Style_parse : string -> option Style;
  Style_str : Style -> string;
  scalar_literal : string -> option (float * Unit);
  get_layout : PyVal -> Result Opaque
}.

(** Modelled from the spec: [Scalar.parse(token, percent_unit)] of
    [scalar.py], which is not part of the sources at hand: the literal's
    number and unit, carrying the percent unit it was asked for; a literal
    that does not parse raises [ScalarParseError]. *)
Definition Scalar_parse `{External} (token : string) (percent : Unit) : Result Scalar.t :=
  match scalar_literal token with
  | Some (v, u) => Ok (Scalar.mk v u percent)
  | None => Raise ScalarParseError
  end.

(** Modelled from the spec: [Spacing.unpack] of [geometry.py], which is not
    part of the sources at hand: one value goes to all sides, two are
    (vertical, horizontal), four are (top, right, bottom, left); any other
    length is a [ValueError]. *)
Definition Spacing_unpack (pad : PyVal) : M PyVal :=
  let* items := py_iter pad in
  match items with
  | [a] => ret (VSpacing a a a a)
  | [v; h] => ret (VSpacing v h v h)
  | [t; r; b; l] => ret (VSpacing t r b l)
  | _ => raise PyValueError
  end.

(** ** The descriptors

    One module per descriptor class; [__set__] and [__get__] take the
    descriptor ([self], or its name where that is all it holds) and run
    against the state of the [Styles] object. *)

Module ScalarProperty.

Record t : Type := mk {
  name : string;
  units : list Unit;
  percent_unit : Unit
}.

(** [self.units = units or {*UNIT_SYMBOL}]: no set, or an empty one, allows
    every unit. *)
Definition __init__ (name : string) (units : option (list Unit))
    (percent_unit : Unit) : t :=
  mk name
     (match units with
      | None | Some [] => UNIT_SYMBOL_keys
      | Some us => us
      end)
     percent_unit.

Definition __get__ (self : t) : M PyVal := get_rule (name self) VNone.

(** The [isinstance] chain that turns the written value into a scalar. *)
Definition new_value_of `{External} (value : PyVal) : Result Scalar.t :=
  match value with
  | VFloat q => Ok (Scalar.mk q CELLS WIDTH)
  | VScalar s => Ok s
  | VStr s =>
      match Scalar_parse s WIDTH with
      | Ok v => Ok v
      | Raise ScalarParseError => Raise (StyleValueError UnableToParseScalar)
      | Raise e => Raise e
      end
  | _ => Raise (StyleValueError ExpectedFloatScalarOrNone)
  end.

Definition __set__ `{External} (self : t) (value : PyVal) : M unit :=
  match value with
  | VNone => clear_rule (name self)
  | _ =>
      let* new_value := lift (new_value_of value) in
      if negb (bool_decide (Scalar.unit new_value ∈ units self)) then
        raise (StyleValueError (UnitsMustBeOneOf (name self) (units self)))
      else
        let new_value :=
          if Scalar.is_percent new_value
          then Scalar.mk (Scalar.value new_value) (percent_unit self) WIDTH
          else new_value in
        set_rule (name self) (VScalar new_value);;
        refresh false
  end.

End ScalarProperty.

Module BoxProperty.

(** [DEFAULT = ("", Color.default())] *)
Definition DEFAULT : PyVal := VTuple [VStr ""; VColor Color_default].

Definition __get__ (name : string) : M (PyVal * PyVal) :=
  let* stored := get_rule name VNone in
  let* edge := py_or stored DEFAULT in
  let* tc := unpack2 edge in
  let '(box_type, color) := tc in
  ret (box_type, color).

Definition __set__ `{External} (name : string) (border : PyVal) : M unit :=
  match border with
  | VNone => clear_rule name
  | _ =>
      let* tc := unpack2 border in
      let '(_type, color) := tc in
      let* new_value :=
        match color with
        | VStr s =>
            match Color_parse s with
            | Some c => ret (VTuple [_type; VColor c])
            | None => raise ColorParseError
            end
        | VColor c => ret (VTuple [_type; color])
        | _ => ret border
        end in
      set_rule name new_value
  end;;
  refresh false.

End BoxProperty.

Module Edges.

(** [Edges(top, right, bottom, left)], each edge a pair of the box type and
    the color. *)
Record t : Type := mk {
  top : PyVal * PyVal;
  right : PyVal * PyVal;
  bottom : PyVal * PyVal;
  left : PyVal * PyVal
}.

(** [bool(top or right or bottom or left)] over the four box types. *)
Definition __bool__ (self : t) : M bool :=
  let '(top, _) := top self in
  let '(right, _) := right self in
  let '(bottom, _) := bottom self in
  let '(left, _) := left self in
  let* a := py_or top right in
  let* b := py_or a bottom in
  let* c := py_or b left in
  py_bool c.

(** The pairs [__rich_repr__] yields: the edges whose box type is true,
    under their names. *)
Definition __rich_repr__ (self : t) : M (list (string * (PyVal * PyVal))) :=
  let* t := py_bool (fst (top self)) in
  let* r := py_bool (fst (right self)) in
  let* b := py_bool (fst (bottom self)) in
  let* l := py_bool (fst (left self)) in
  ret ((if t then [("top", top self)] else [])
       ++ (if r then [("right", right self)] else [])
       ++ (if b then [("bottom", bottom self)] else [])
       ++ (if l then [("left", left self)] else [])).

Definition spacing (self : t) : M (Z * Z * Z * Z) :=
  let* t := py_bool (fst (top self)) in
  let* r := py_bool (fst (right self)) in
  let* b := py_bool (fst (bottom self)) in
  let* l := py_bool (fst (left self)) in
  ret ((if t then 1 else 0)%Z, (if r then 1 else 0)%Z,
       (if b then 1 else 0)%Z, (if l then 1 else 0)%Z).

End Edges.

Module BorderProperty.

(** [self._properties], built from the name by [__set_name__]. *)
Definition _properties (name : string) : string * string * string * string :=
  (String.append name "_top", String.append name "_right",
   String.append name "_bottom", String.append name "_left").

(** Modelled from the spec: as for [setattr] below, [getattr(obj, edge)]
    runs the getter of the box descriptor of that edge. *)
Definition getattr (edge : string) : M (PyVal * PyVal) :=
  BoxProperty.__get__ edge.

Definition __get__ (name : string) : M Edges.t :=
  let '(e_top, e_right, e_bottom, e_left) := _properties name in
  let* t := getattr e_top in
  let* r := getattr e_right in
  let* b := getattr e_bottom in
  let* l := getattr e_left in
  let border := Edges.mk t r b l in
  ret border.

(** Modelled from the spec: the [Styles] class of [styles.py], which is not
    part of the sources at hand, has a box descriptor under each of the
    four names, so [setattr(obj, edge, value)] runs that descriptor's
    setter. *)
Definition setattr `{External} (edge : string) (v : PyVal) : M unit :=
  BoxProperty.__set__ edge v.

Definition __set__ `{External} (name : string) (border : PyVal) : M unit :=
  let '(e_top, e_right, e_bottom, e_left) := _properties name in
  refresh false;;
  match border with
  | VNone =>
      clear_rule e_top;; clear_rule e_right;; clear_rule e_bottom;; clear_rule e_left
  | _ =>
      if is_tuple border then
        setattr e_top border;; setattr e_right border;;
        setattr e_bottom border;; setattr e_left border
      else
        let* count := py_len border in
        match count with
        | 1 =>
            let* _border := py_getitem0 border in
            setattr e_top _border;; setattr e_right _border;;
            setattr e_bottom _border;; setattr e_left _border
        | 2 =>
            let* bs := unpack2 border in
            let '(_border1, _border2) := bs in
            setattr e_top _border1;; setattr e_right _border1;;
            setattr e_bottom _border2;; setattr e_left _border2
        | 4 =>
            let* bs := unpack4 border in
            let '(_border1, _border2, _border3, _border4) := bs in
            setattr e_top _border1;; setattr e_right _border2;;
            setattr e_bottom _border3;; setattr e_left _border4
        | _ => raise (StyleValueError Expected124Values)
        end
  end.

End BorderProperty.

Module ColorProperty.

Definition __get__ (name : string) : M PyVal :=
  let* stored := get_rule name VNone in
  py_or stored (VColor Color_default).

Definition __set__ `{External} (name : string) (color : PyVal) : M unit :=
  refresh false;;
  match color with
  | VNone => clear_rule name
  | VColor _ => set_rule name color
  | VStr s =>
      match Color_parse s with
      | Some c => set_rule name (VColor c)
      | None => raise ColorParseError
      end
  | _ => ret tt
  end.

End ColorProperty.

Module StyleFlagsProperty.

Definition _VALID_PROPERTIES : list string :=
  ["none"; "not"; "bold"; "italic"; "underline"; "overline"; "strike";
   "b"; "i"; "u"; "o"].

Definition valid_word (word : string) : bool :=
  bool_decide (word ∈ _VALID_PROPERTIES).

(** [[word.strip() for word in style_flags.split(" ")]] *)
Definition words (style_flags : string) : list string :=
  map PyStr.strip (PyStr.split " " style_flags).

(** The loop over the words: the first one outside the vocabulary raises. *)
Fixpoint check_words (ws : list string) : M unit :=
  match ws with
  | [] => ret tt
  | word :: ws' =>
      if negb (valid_word word) then raise (StyleValueError (UnknownWord word))
      else check_words ws'
  end.

Definition __get__ (name : string) : M PyVal := get_rule name (VStyle Style_null).

Definition __set__ `{External} (name : string) (style_flags : PyVal) : M unit :=
  refresh false;;
  match style_flags with
  | VNone => clear_rule name
  | VStr flags =>
      check_words (words flags);;
      match Style_parse flags with
      | Some style => set_rule name (VStyle style)
      | None => raise StyleSyntaxError
      end
  | _ => raise PyAttributeError
  end.

End StyleFlagsProperty.

Module StyleProperty.

(** The assignments to [obj.text_color], [obj.text_background] and
    [obj.text_style] run the color and style-flags descriptors the [Styles]
    class holds under those names. *)
Definition __set__ `{External} (style : PyVal) : M unit :=
  refresh false;;
  match style with
  | VNone =>
      clear_rule "text_color";; clear_rule "text_background";;
      clear_rule "text_style"
  | _ =>
      let* style :=
        match style with
        | VStr s =>
            match Style_parse s with
            | Some st => ret st
            | None => raise StyleSyntaxError
            end
        | VStyle st => ret st
        | _ => raise PyAttributeError
        end in
      match style_color style with
      | Some c => ColorProperty.__set__ "text_color" (VColor c)
      | None => ret tt
      end;;
      match style_bgcolor style with
      | Some c => ColorProperty.__set__ "text_background" (VColor c)
      | None => ret tt
      end;;
      if without_color_bool style then
        StyleFlagsProperty.__set__ "text_style"
          (VStr (Style_str (without_color style)))
      else ret tt
  end.

End StyleProperty.

Module SpacingProperty.

(** Modelled from the spec: [NULL_SPACING] of [constants.py], which is not
    part of the sources at hand: the spacing that is zero on all sides. *)
Definition NULL_SPACING : PyVal := VSpacing (VInt 0) (VInt 0) (VInt 0) (VInt 0).

Definition __get__ (name : string) : M PyVal := get_rule name NULL_SPACING.

Definition __set__ (name : string) (spacing : PyVal) : M unit :=
  refresh true;;
  match spacing with
  | VNone => clear_rule name
  | _ => let* sp := Spacing_unpack spacing in set_rule name sp
  end.

End SpacingProperty.

Module DocksProperty.

Definition __get__ : M PyVal := get_rule "docks" (VTuple []).

Definition __set__ (docks : PyVal) : M unit :=
  refresh true;;
  match docks with
  | VNone => clear_rule "docks"
  | _ => let* items := py_iter docks in set_rule "docks" (VTuple items)
  end.

End DocksProperty.

Module DockProperty.

Definition __get__ : M PyVal := get_rule "dock" (VStr "_default").

Definition __set__ (spacing : PyVal) : M unit :=
  refresh true;;
  set_rule "dock" spacing.

End DockProperty.

Module LayoutProperty.

Definition __get__ (name : string) : M PyVal := get_rule name VNone.

Definition __set__ `{External} (layout : PyVal) : M unit :=
  refresh true;;
  match layout with
  | VNone => clear_rule "layout"
  | VLayout _ => set_rule "layout" layout
  | _ => let* l := lift (get_layout layout) in set_rule "layout" (VLayout l)
  end.

End LayoutProperty.

Module OffsetProperty.

(** One component of the pair: a string is parsed with the percent unit of
    its axis, anything else goes through [float] and counts cells; [float]
    raises [OverflowError] for an int too large for a double and
    [TypeError] for what is no number. *)
Definition component `{External} (c : PyVal) (axis : Unit) : M Scalar.t :=
  match c with
  | VStr s => lift (Scalar_parse s axis)
  | VInt z =>
      match float_of_Z z with
      | Some f => ret (Scalar.mk f CELLS axis)
      | None => raise PyOverflowError
      end
  | VFloat f => ret (Scalar.mk f CELLS axis)
  | _ => raise PyTypeError
  end.

Definition __set__ `{External} (name : string) (offset : PyVal) : M unit :=
  refresh true;;
  match offset with
  | VNone => clear_rule name
  | VScalarOffset _ _ => set_rule name offset
  | _ =>
      let* xy := unpack2 offset in
      let '(x, y) := xy in
      let* scalar_x := component x WIDTH in
      let* scalar_y := component y HEIGHT in
      let _offset := VScalarOffset scalar_x scalar_y in
      set_rule name _offset
  end.

End OffsetProperty.

Module StringEnumProperty.

Record t : Type := mk {
  name : string;
  _valid_values : list string;
  _default : string
}.

Definition __get__ (self : t) : M PyVal :=
  get_rule (name self) (VStr (_default self)).

(** [value not in self._valid_values], a set of strings: an unhashable
    value fails the lookup, a value that is no string is not found. *)
Definition not_in_valid_values (self : t) (value : PyVal) : M bool :=
  if negb (hashable value) then raise PyTypeError
  else match value with
       | VStr s => ret (negb (bool_decide (s ∈ _valid_values self)))
       | _ => ret true
       end.

Definition __set__ (self : t) (value : PyVal) : M unit :=
  refresh false;;
  match value with
  | VNone => clear_rule (name self)
  | _ =>
      let* missing := not_in_valid_values self value in
      if missing then
        raise (StyleValueError (MustBeOneOf (name self) (_valid_values self)))
      else set_rule (name self) value
  end.

End StringEnumProperty.

Module NameProperty.

Definition __get__ (self_name : string) : M PyVal := get_rule self_name (VStr "").

Definition __set__ (self_name : string) (name : PyVal) : M unit :=
  refresh true;;
  match name with
  | VNone => clear_rule self_name
  | VStr _ => set_rule self_name name
  | _ => raise (StyleTypeError self_name)
  end.

End NameProperty.

Module NameListProperty.

Definition __get__ (self_name : string) : M PyVal :=
  get_rule self_name (VTuple []).

Definition __set__ (self_name : string) (names : PyVal) : M unit :=
  refresh true;;
  match names with
  | VNone => clear_rule self_name
  | VStr s =>
      set_rule self_name
        (VTuple (map (fun name => VStr (PyStr.lower (PyStr.strip name)))
                     (PyStr.split " " s)))
  | _ => if is_tuple names then set_rule self_name names else ret tt
  end.

End NameListProperty.

Module TransitionsProperty.

(** The default [{}] is a new dictionary, made before the lookup. *)
Definition __get__ : M PyVal :=
  let* l := alloc [] in get_rule "transitions" (VDict l).

Definition __set__ (transitions : PyVal) : M unit :=
  match transitions with
  | VNone => clear_rule "transitions"
  | _ => let* c := py_copy transitions in set_rule "transitions" c
  end.

End TransitionsProperty.

Module FractionalProperty.

Record t : Type := mk {
  name : string;
  default : float
}.

Definition __get__ (self : t) : M PyVal :=
  get_rule (name self) (VFloat (default self)).

Definition __set__ `{External} (self : t) (value : PyVal) : M unit :=
  refresh false;;
  match value with
  | VNone => clear_rule (name self)
  | _ =>
      let* float_value :=
        match value with
        | VFloat f => ret f
        | VStr s =>
            if PyStr.endswith s "%" then
              let* sc := lift (Scalar_parse s WIDTH) in
              ret (Scalar.value sc / 100)%float
            else raise (StyleTypeError (name self))
        | _ => raise (StyleTypeError (name self))
        end in
      set_rule (name self) (clamp float_value 0 1)
  end.

End FractionalProperty.

(** ** What a caller can do to a dictionary it holds *)

(** [d[k] = v] *)
Fixpoint dict_setitem (k : string) (v : PyVal) (d : Dict) : Dict :=
  match d with
  | [] => [(k, v)]
  | (k', v') :: d' =>
      if String.eqb k k' then (k, v) :: d' else (k', v') :: dict_setitem k v d'
  end.

(** [d.pop(k, None)] *)
Definition dict_pop (k : string) (d : Dict) : Dict :=
  filter (fun kv => negb (String.eqb k (fst kv))) d.

(** An in-place change [f] of the dictionary at [l]. *)
Definition mutate (l : loc) (f : Dict -> Dict) : M unit :=
  fun st => (Ok tt, mkState (rules st) (alter f l (heap st)) (calls st)).

(** The mapping the store holds under "transitions", when it holds one. *)
Definition stored_transitions (st : State) : option Dict :=
  match rules st !! "transitions" with
  | Some (VDict l) => heap st !! l
  | _ => None
  end.

(** The refresh requests among the calls, by their [layout] flag. *)
Fixpoint refreshes (cs : list Call) : list bool :=
  match cs with
  | [] => []
  | Refresh layout :: cs' => layout :: refreshes cs'
  | _ :: cs' => refreshes cs'
  end.

(** ** A reference instance of the collaborators

    Small parsers in the manner of the real ones, against which the
    development can be run on concrete inputs. *)
Module Reference.

Definition Color_parse (s : string) : option Color :=
  if String.eqb s "red" then Some (mkColor "red" 1 (Some 1%Z) None)
  else if String.eqb s "green" then Some (mkColor "green" 1 (Some 2%Z) None)
  else if String.eqb s "blue" then Some (mkColor "blue" 1 (Some 4%Z) None)
  else None.

(** The attribute a word names, if any. *)
Definition attribute (w : string) : option string :=
  if String.eqb w "bold" || String.eqb w "b" then Some "bold"
  else if String.eqb w "dim" || String.eqb w "d" then Some "dim"
  else if String.eqb w "italic" || String.eqb w "i" then Some "italic"
  else if String.eqb w "underline" || String.eqb w "u" then Some "underline"
  else if String.eqb w "strike" || String.eqb w "s" then Some "strike"
  else if String.eqb w "overline" || String.eqb w "o" then Some "overline"
  else None.

Fixpoint parse_words (ws : list string) (acc : Style) : option Style :=
  match ws with
  | [] => Some acc
  | w :: ws' =>
      if String.eqb w "not" then
        match ws' with
        | a :: ws'' =>
            match attribute a with
            | Some n =>
                parse_words ws''
                  (mkStyle (style_color acc) (style_bgcolor acc)
                           (style_attributes acc ++ [(n, false)]))
            | None => None
            end
        | [] => None
        end
      else
        match attribute w with
        | Some n =>
            parse_words ws'
              (mkStyle (style_color acc) (style_bgcolor acc)
                       (style_attributes acc ++ [(n, true)]))
        | None =>
            match Color_parse w with
            | Some c =>
                parse_words ws'
                  (mkStyle (Some c) (style_bgcolor acc) (style_attributes acc))
            | None => None
            end
        end
  end.

Definition nonempty (s : string) : bool := negb (String.eqb s "").

Definition Style_parse (s : string) : option Style :=
  if String.eqb (PyStr.strip s) "none" || String.eqb s "" then Some Style_null
  else parse_words (filter nonempty (map PyStr.strip (PyStr.split " " s)))
                   Style_null.

Definition Style_str (s : Style) : string :=
  match style_attributes s with
  | [] => "none"
  | attrs =>
      String.concat " "
        (map (fun p : string * bool =>
                if snd p then fst p else String.append "not " (fst p)) attrs)
  end.

Definition digit (c : ascii) : option Z :=
  let n := nat_of_ascii c in
  if Nat.leb 48 n && Nat.leb n 57 then Some (Z.of_nat (n - 48)) else None.

(** The leading digits of a string as a number, and what follows them. *)
Fixpoint number (s : string) (acc : option Z) : option Z * string :=
  match s with
  | EmptyString => (acc, EmptyString)
  | String c s' =>
      match digit c with
      | Some d =>
          number s' (Some (10 * match acc with Some a => a | None => 0 end + d)%Z)
      | None => (acc, s)
      end
  end.

Definition symbol_unit (s : string) : option Unit :=
  if String.eqb s "" then Some CELLS
  else if String.eqb s "fr" then Some FRACTION
  else if String.eqb s "%" then Some PERCENT
  else if String.eqb s "w" then Some WIDTH
  else if String.eqb s "h" then Some HEIGHT
  else if String.eqb s "vw" then Some VIEW_WIDTH
  else if String.eqb s "vh" then Some VIEW_HEIGHT
  else None.

Definition scalar_literal (s : string) : option (float * Unit) :=
  match number s None with
  | (Some n, rest) =>
      match symbol_unit rest, float_of_Z n with
      | Some u, Some f => Some (f, u)
      | _, _ => None
      end
  | (None, _) => None
  end.

Definition get_layout (v : PyVal) : Result Opaque :=
  if negb (hashable v) then Raise PyTypeError
  else match v with
       | VStr s =>
           if String.eqb s "dock" then Ok 1%N
           else if String.eqb s "vertical" then Ok 2%N
           else if String.eqb s "grid" then Ok 3%N
           else Raise MissingLayout
       | _ => Raise MissingLayout
       end.

#[export] Instance external : External := {
  Color_parse := Color_parse;
  Style_parse := Style_parse;
  Style_str := Style_str;
  scalar_literal := scalar_literal;
  get_layout := get_layout
}.

End Reference.

(** ** Finding the app to run ([cli.py])

    [import_app] reads a file or imports a module, which is the business
    of the host: running the file's code and importing are collaborators,
    and the objects they bind are known by what [import_app] asks of them. *)
Module Cli.

(** [App] itself, or one of its proper subclasses. *)
Inductive AppClass : Type :=
| App
| Subclass (id : N).

(** A Python object, as far as [isinstance(_, App)], [inspect.isclass] and
    [issubclass(_, App)] tell objects apart. *)
Inductive Obj : Type :=
| Instance (cls : AppClass) (id : N)
| Made (cls : AppClass)
| Class (cls : AppClass)
| OtherClass (id : N)
| Other (id : N).

(** [isinstance(value, App)]: an instance found, or one made by calling
    the class. *)
Definition isinstance_App (value : Obj) : bool :=
  match value with
  | Instance _ _ | Made _ => true
  | _ => false
  end.

(** [inspect.isclass(value) and issubclass(value, App)] *)
Definition is_App_class (value : Obj) : bool :=
  match value with
  | Class _ => true
  | _ => false
  end.

(** [value is not App] *)
Definition is_not_App (value : Obj) : bool :=
  match value with
  | Class App => false
  | _ => true
  end.

(** What [AppFail] reports. *)
Inductive Failure : Type :=
| CannotOpen (error : string)
| NotFound (name lib : string)
| NoAppFound (lib : string)
| MultipleApps (lib : string)
| CannotImport (error : string)
| NoAttribute (name lib : string).

(** How a call ends: with a value, with [AppFail], or with an exception the
    function does not catch. *)
Inductive Outcome (A : Type) : Type :=
| Done (a : A)
| AppFail (f : Failure)
| Raised.
Arguments Done {A} a.
Arguments AppFail {A} f.
Arguments Raised {A}.

(** Opening and running a file: the file cannot be opened or read, its
    code raises, or it leaves its global variables, in the order they were
    bound. *)
Inductive FileRun : Type :=
| OpenFails (error : string)
| ExecRaises
| Globals (global_vars : list (string * Obj)).

(** Importing a module: [ImportError], another exception, or the module
    with its attributes. *)
Inductive Import : Type :=
| ImportError (error : string)
| ImportRaises
| Module (attrs : list (string * Obj)).

(** Calling a class of [App] with no argument: its constructor returns
    an instance of the class, or raises. *)
Inductive Construct : Type :=
| Constructs
| ConstructRaises.

Class Host : Type := {
  run_file : string -> FileRun;
  import_module : string -> Import;
  construct : AppClass -> Construct
}.

(** [s.partition(sep)] for a one-character separator: the part before the
    first separator, the separator, the part after; the string and two
    empty strings when there is none. *)
Fixpoint partition (sep : ascii) (s : string) : string * string * string :=
  match s with
  | EmptyString => (EmptyString, EmptyString, EmptyString)
  | String c s' =>
      if Ascii.eqb c sep then (EmptyString, String sep EmptyString, s')
      else let '(head, found, tail) := partition sep s' in
           (String c head, found, tail)
  end.

(** [d[key]] on a dictionary with string keys; [None] is [KeyError]. *)
Fixpoint lookup (key : string) (d : list (string * Obj)) : option Obj :=
  match d with
  | [] => None
  | (k, v) :: d' => if String.eqb key k then Some v else lookup key d'
  end.

(** The test of the list comprehension that collects the apps of a file. *)
Definition is_app (value : Obj) : bool :=
  isinstance_App value || (is_App_class value && is_not_App value).

(** [if inspect.isclass(app) and issubclass(app, App): app = app()], and
    what is then returned; an exception of the constructor is not caught. *)
Definition instantiate `{Host} (app : Obj) : Outcome Obj :=
  match app with
  | Class cls =>
      match construct cls with
      | Constructs => Done (Made cls)
      | ConstructRaises => Raised
      end
  | _ => Done app
  end.

(** The app among the global variables of a file that was run. *)
Definition app_of_file (lib name : string) (global_vars : list (string * Obj))
    : Outcome Obj :=
  if negb (String.eqb name "") then
    match lookup name global_vars with
    | Some app => Done app
    | None => AppFail (NotFound name lib)
    end
  else
    match lookup "app" global_vars with
    | Some app => Done app
    | None =>
        let apps := filter is_app (map snd global_vars) in
        match apps with
        | [] => AppFail (NoAppFound lib)
        | [app] => Done app
        | _ => AppFail (MultipleApps lib)
        end
    end.

(** [import_app(import_name)], with [sys.path] before and after. *)
Definition import_app `{Host} (import_name : string) (sys_path : list string)
    : Outcome Obj * list string :=
  let '(lib, _colon, name) := partition ":" import_name in
  if PyStr.endswith lib ".py" then
    match run_file lib with
    | OpenFails error => (AppFail (CannotOpen error), sys_path)
    | ExecRaises => (Raised, sys_path)
    | Globals global_vars =>
        match app_of_file lib name global_vars with
        | Done app => (instantiate app, sys_path)
        | AppFail f => (AppFail f, sys_path)
        | Raised => (Raised, sys_path)
        end
    end
  else
    let sys_path := sys_path ++ [""] in
    match import_module lib with
    | ImportError error => (AppFail (CannotImport error), sys_path)
    | ImportRaises => (Raised, sys_path)
    | Module attrs =>
        match lookup (if negb (String.eqb name "") then name else "app") attrs with
        | Some app => (instantiate app, sys_path)
        | None => (AppFail (NoAttribute name lib), sys_path)
        end
    end.

(** A host with two files and one module, for running the above; the
    constructor of one class of the second file raises. *)
Definition reference_host : Host := {|
  run_file lib :=
    if String.eqb lib "demo.py" then
      Globals [("App", Class App); ("Clock", Class (Subclass 1));
               ("helper", Other 2)]
    else if String.eqb lib "two.py" then
      Globals [("Clock", Class (Subclass 1)); ("Timer", Class (Subclass 3))]
    else OpenFails "No such file or directory";
  import_module lib :=
    if String.eqb lib "demo" then Module [("app", Instance (Subclass 1) 4)]
    else ImportError "No module named that";
  construct cls :=
    match cls with
    | Subclass 3 => ConstructRaises
    | _ => Constructs
    end
|}.

End Cli.

(** ** Observations on a run

    What the statements below say about the log of calls and about the
    inputs of a write. *)

(** [m] only adds calls to the log, and what it adds satisfies [P]. *)
Definition grows {A} (P : list Call -> Prop) (m : M A) : Prop :=
  forall st, exists new, calls (snd (m st)) = calls st ++ new /\ P new.

(** The added calls hold no refresh request at all. *)
Definition quiet (cs : list Call) : Prop := refreshes cs = [].

(** The added calls hold no request for a new layout. *)
Definition paint_only (cs : list Call) : Prop :=
  Forall (fun layout => layout = false) (refreshes cs).

(** A predicate on added calls that sequencing preserves. *)
Class Sequential (P : list Call -> Prop) : Prop := {
  seq_nil : P [];
  seq_app : forall a b, P a -> P b -> P (a ++ b)
}.

(** The first call [m] makes is [refresh(layout)], whatever follows and
    however [m] ends; what follows satisfies [P]. *)
Definition refreshes_first {A} (layout : bool) (P : list Call -> Prop)
    (m : M A) : Prop :=
  forall st, exists new,
    calls (snd (m st)) = calls st ++ Refresh layout :: new /\ P new.

(** What the four edges hold after a border write, read from the store. *)
Definition edges_after (name : string) (st : State) : list (option PyVal) :=
  let '(t, r, b, l) := BorderProperty._properties name in
  [rules st !! t; rules st !! r; rules st !! b; rules st !! l].

(** The types the color setter has a branch for. *)
Definition color_accepts (v : PyVal) : bool :=
  match v with
  | VNone | VColor _ | VStr _ => true
  | _ => false
  end.



(** What one component of an offset pair stands for on its axis: a literal
    the scalar parser reads, with the percent unit of the axis, or a number
    of cells, an int being the float Python converts it to. *)
Inductive component_of `{External} (axis : Unit) : PyVal -> Scalar.t -> Prop :=
| component_literal (s : string) (q : float) (u : Unit) :
    scalar_literal s = Some (q, u) ->
    component_of axis (VStr s) (Scalar.mk q u axis)
| component_int (z : Z) (q : float) :
    float_of_Z z = Some q ->
    component_of axis (VInt z) (Scalar.mk q CELLS axis)
| component_float (q : float) :
    component_of axis (VFloat q) (Scalar.mk q CELLS axis).

(** [m] leaves the rules as they are, however it ends. *)
Definition keeps_rules {A} (m : M A) : Prop :=
  forall st, rules (snd (m st)) = rules st.

(** [m] changes no rule when it raises. *)
Definition commits_last {A} (m : M A) : Prop :=
  forall st e, fst (m st) = Raise e -> rules (snd (m st)) = rules st.

(** The box type of an edge counts as set. *)
Definition edge_set (b : bool) : Z := if b then 1%Z else 0%Z.

(** The values the name-list setter has a branch for. *)
Definition namelist_accepts (v : PyVal) : bool :=
  match v with
  | VNone | VStr _ => true
  | _ => is_tuple v
  end.

(** ** A name-list token, in the specification's words

    The specification has the string split at its spaces and each piece
    trimmed and lower-cased. These say what that means of a piece and its
    token, character by character and without the string methods. *)











(** * Properties *)

Create HintDb py discriminated.
#[local] Hint Unfold bind ret raise lift log refresh set_rule clear_rule
  get_rule has_rule alloc deref mutate : py.

(** Runs the monad's plumbing on the goal. *)
Ltac run := autounfold with py; cbn [fst snd rules heap calls].

(** ** How the call log grows *)

Lemma refreshes_app (a b : list Call) :
  refreshes (a ++ b) = refreshes a ++ refreshes b.
Proof.
  induction a as [|c a IH]; [reflexivity|].
  destruct c; cbn; rewrite IH; reflexivity.
Qed.

Lemma quiet_paint_only cs : quiet cs -> paint_only cs.
Proof. unfold quiet, paint_only. intros ->. constructor. Qed.

Lemma paint_only_app a b : paint_only a -> paint_only b -> paint_only (a ++ b).
Proof.
  unfold paint_only. rewrite refreshes_app. intros Ha Hb.
  apply Forall_app. split; assumption.
Qed.

Lemma quiet_app a b : quiet a -> quiet b -> quiet (a ++ b).
Proof. unfold quiet. rewrite refreshes_app. intros -> ->. reflexivity. Qed.

#[local] Instance quiet_sequential : Sequential quiet.
Proof. split; [reflexivity | exact quiet_app]. Qed.

#[local] Instance paint_only_sequential : Sequential paint_only.
Proof. split; [constructor | exact paint_only_app]. Qed.

Lemma grows_ret {A} P `{!Sequential P} (a : A) : grows P (ret a).
Proof. intros st. exists []. rewrite app_nil_r. split; [reflexivity | apply seq_nil]. Qed.

Lemma grows_raise {A} P `{!Sequential P} e : grows P (@raise A e).
Proof. intros st. exists []. rewrite app_nil_r. split; [reflexivity | apply seq_nil]. Qed.

Lemma grows_lift {A} P `{!Sequential P} (r : Result A) : grows P (lift r).
Proof. intros st. exists []. rewrite app_nil_r. split; [reflexivity | apply seq_nil]. Qed.

Lemma grows_bind {A B} P `{!Sequential P} (m : M A) (k : A -> M B) :
  grows P m -> (forall a, grows P (k a)) -> grows P (bind m k).
Proof.
  intros Hm Hk st. unfold bind.
  destruct (Hm st) as (n1 & E1 & P1).
  destruct (m st) as [[a|e] st1]; cbn in E1.
  - destruct (Hk a st1) as (n2 & E2 & P2).
    exists (n1 ++ n2). rewrite E2, E1, app_assoc.
    split; [reflexivity | apply seq_app; assumption].
  - exists n1. split; assumption.
Qed.

Lemma grows_weaken {A} (P Q : list Call -> Prop) (m : M A) :
  (forall cs, P cs -> Q cs) -> grows P m -> grows Q m.
Proof.
  intros HPQ Hm st. destruct (Hm st) as (new & E & HP).
  exists new. split; [assumption | apply HPQ, HP].
Qed.

Lemma grows_set_rule name v : grows quiet (set_rule name v).
Proof. intros st. eexists. split; reflexivity. Qed.

Lemma grows_clear_rule name : grows quiet (clear_rule name).
Proof. intros st. eexists. split; reflexivity. Qed.

Lemma grows_deref l : grows quiet (deref l).
Proof.
  intros st. exists []. rewrite app_nil_r. unfold deref.
  destruct (heap st !! l); split; reflexivity.
Qed.

Lemma grows_alloc d : grows quiet (alloc d).
Proof. intros st. exists []. rewrite app_nil_r. split; reflexivity. Qed.

Lemma grows_refresh_false : grows paint_only (refresh false).
Proof.
  intros st. exists [Refresh false]. split; [reflexivity|].
  repeat constructor.
Qed.

Lemma grows_py_iter v : grows quiet (py_iter v).
Proof.
  unfold py_iter. destruct (tuple_items v); [apply grows_ret, _|].
  destruct v; try (apply grows_raise, _); try (apply grows_ret, _).
  apply grows_bind; [apply _ | apply grows_deref | intros; apply grows_ret, _].
Qed.

Lemma grows_py_len v : grows quiet (py_len v).
Proof.
  unfold py_len. destruct (tuple_items v); [apply grows_ret, _|].
  destruct v; try (apply grows_raise, _); try (apply grows_ret, _).
  apply grows_bind; [apply _ | apply grows_deref | intros; apply grows_ret, _].
Qed.

Lemma grows_unpack2 v : grows quiet (unpack2 v).
Proof.
  unfold unpack2. apply grows_bind; [apply _ | apply grows_py_iter |].
  intros [|a [|b [|c items]]]; try (apply grows_raise, _). apply grows_ret, _.
Qed.

Lemma grows_unpack4 v : grows quiet (unpack4 v).
Proof.
  unfold unpack4. apply grows_bind; [apply _ | apply grows_py_iter |].
  intros [|a [|b [|c [|d [|e items]]]]]; try (apply grows_raise, _).
  apply grows_ret, _.
Qed.

Lemma grows_py_getitem0 v : grows quiet (py_getitem0 v).
Proof.
  assert (H : grows quiet
                (let* items := py_iter v in
                 match items with x :: _ => ret x | [] => raise PyKeyError end)).
  { apply grows_bind; [apply _ | apply grows_py_iter |].
    intros [|x items]; [apply grows_raise, _ | apply grows_ret, _]. }
  destruct v; first [exact H | apply grows_raise, _].
Qed.

(** The first thing [refresh layout;; k] adds to the log is the request. *)
Lemma refresh_first {A} P layout (k : M A) st :
  grows P k ->
  exists new, calls (snd ((refresh layout;; k) st))
              = calls st ++ Refresh layout :: new /\ P new.
Proof.
  intros Hk. run.
  destruct (Hk (mkState (rules st) (heap st) (calls st ++ [Refresh layout])))
    as (new & E & HP).
  exists new. rewrite E. cbn. rewrite <- app_assoc. split; [reflexivity | exact HP].
Qed.

(** ** Border shorthand *)

Lemma append_inj_l (p a b : string) :
  String.append p a = String.append p b -> a = b.
Proof.
  induction p as [|c p IH]; cbn; [trivial|].
  intros E. injection E as E. apply IH, E.
Qed.

(** The four edge rules of a border have four different names. *)
Lemma edge_names_distinct (name : string) :
  let '(t, r, b, l) := BorderProperty._properties name in
  t <> r /\ t <> b /\ t <> l /\ r <> b /\ r <> l /\ b <> l.
Proof.
  cbn. repeat split; intros E; apply append_inj_l in E; discriminate E.
Qed.

Lemma edges_of_inserts (name : string) (m : gmap string PyVal) (h : gmap loc Dict)
    (cs : list Call) (vt vr vb vl : PyVal) :
  edges_after name
    (mkState (<[String.append name "_left" := vl]>
               (<[String.append name "_bottom" := vb]>
                 (<[String.append name "_right" := vr]>
                   (<[String.append name "_top" := vt]> m)))) h cs)
  = [Some vt; Some vr; Some vb; Some vl].
Proof.
  pose proof (edge_names_distinct name) as D. cbn in D.
  destruct D as (D1 & D2 & D3 & D4 & D5 & D6).
  unfold edges_after. cbn.
  repeat f_equal; simplify_map_eq; reflexivity.
Qed.

(** C1, on the code: a border written as a sequence of two values gives
    the first value to the top and right edges and the second to the bottom
    and left edges, where the claim (and the docstring of the setter) give
    the first to top and bottom and the second to right and left. *)
Theorem Border_two_values_go_top_right `{External}
    (name : string) (k1 k2 : PyVal) (c1 c2 : Color) (st : State) :
  let b1 := VTuple [k1; VColor c1] in
  let b2 := VTuple [k2; VColor c2] in
  let out := BorderProperty.__set__ name (VList [b1; b2]) st in
  fst out = Ok tt /\
  edges_after name (snd out) = [Some b1; Some b1; Some b2; Some b2].
Proof.
  cbn zeta. split; [reflexivity|].
  unfold BorderProperty.__set__, BorderProperty.setattr, BoxProperty.__set__.
  cbn. run. cbn.
  exact (edges_of_inserts name (rules st) (heap st) [] _ _ _ _).
Qed.

(** The same write on a concrete border: solid red, then dashed blue. *)
Example Border_two_values_example :
  let red := VColor (mkColor "red" 1 (Some 1%Z) None) in
  let blue := VColor (mkColor "blue" 1 (Some 4%Z) None) in
  edges_after "border"
    (snd (BorderProperty.__set__ (H := Reference.external) "border"
            (VList [VTuple [VStr "solid"; red]; VTuple [VStr "dashed"; blue]])
            empty_state))
  = [Some (VTuple [VStr "solid"; red]); Some (VTuple [VStr "solid"; red]);
     Some (VTuple [VStr "dashed"; blue]); Some (VTuple [VStr "dashed"; blue])].
Proof. reflexivity. Qed.

(** A sequence of one value decorates all four edges with it. *)
Lemma Border_one_value `{External} (name : string) (k : PyVal) (c : Color)
    (st : State) :
  let b := VTuple [k; VColor c] in
  let out := BorderProperty.__set__ name (VList [b]) st in
  fst out = Ok tt /\ edges_after name (snd out) = [Some b; Some b; Some b; Some b].
Proof.
  cbn zeta. split; [reflexivity|].
  unfold BorderProperty.__set__, BorderProperty.setattr, BoxProperty.__set__.
  cbn. run. cbn.
  exact (edges_of_inserts name (rules st) (heap st) [] _ _ _ _).
Qed.

(** A sequence of four values goes to top, right, bottom, left in order. *)
Lemma Border_four_values `{External} (name : string) (k1 k2 k3 k4 : PyVal)
    (c1 c2 c3 c4 : Color) (st : State) :
  let b1 := VTuple [k1; VColor c1] in
  let b2 := VTuple [k2; VColor c2] in
  let b3 := VTuple [k3; VColor c3] in
  let b4 := VTuple [k4; VColor c4] in
  let out := BorderProperty.__set__ name (VList [b1; b2; b3; b4]) st in
  fst out = Ok tt /\
  edges_after name (snd out) = [Some b1; Some b2; Some b3; Some b4].
Proof.
  cbn zeta. split; [reflexivity|].
  unfold BorderProperty.__set__, BorderProperty.setattr, BoxProperty.__set__.
  cbn. run. cbn.
  exact (edges_of_inserts name (rules st) (heap st) [] _ _ _ _).
Qed.

(** A list of any other length raises the arity error and stores nothing. *)
Lemma Border_other_length `{External} (name : string) (items : list PyVal)
    (st : State) :
  length items <> 1 -> length items <> 2 -> length items <> 4 ->
  let out := BorderProperty.__set__ name (VList items) st in
  fst out = Raise (StyleValueError Expected124Values) /\
  is_ValueError (StyleValueError Expected124Values) = true /\
  rules (snd out) = rules st.
Proof.
  intros H1 H2 H4. cbn zeta.
  unfold BorderProperty.__set__. cbn. run.
  destruct items as [|a [|b [|c [|d [|e items]]]]]; cbn in *;
    try congruence; auto.
Qed.

Lemma Border_other_length_witness :
  let out := BorderProperty.__set__ (H := Reference.external) "border"
               (VList [VNone; VNone; VNone]) empty_state in
  fst out = Raise (StyleValueError Expected124Values) /\
  is_ValueError (StyleValueError Expected124Values) = true /\
  rules (snd out) = rules empty_state.
Proof.
  cbn zeta.
  apply (Border_other_length (H := Reference.external) "border"
           [VNone; VNone; VNone] empty_state); cbn; lia.
Defined.

(** ** Dock *)

(** C2: for the Dock property, writing any value, then [None], then
    reading returns the default "_default". Both writes return normally;
    after the [None] write the rule "dock" is absent from the store, and a
    read gives "_default" and leaves the state as it is. No Dock write,
    whatever the value, leaves a null value under "dock". The setter hands
    [None] to [set_rule], after a layout refresh. *)
Theorem Dock_none_write_clears (v : PyVal) (st : State) :
  let st1 := snd (DockProperty.__set__ v st) in
  let st2 := snd (DockProperty.__set__ VNone st1) in
  fst (DockProperty.__set__ v st) = Ok tt /\
  fst (DockProperty.__set__ VNone st1) = Ok tt /\
  rules st2 !! "dock" = None /\
  DockProperty.__get__ st2 = (Ok (VStr "_default"), st2) /\
  rules st1 !! "dock" <> Some VNone /\
  calls st2 = calls st1 ++ [Refresh true; SetRule "dock" VNone].
Proof.
  cbn zeta. unfold DockProperty.__set__, DockProperty.__get__. run.
  cbn. rewrite lookup_delete_eq, <- !app_assoc.
  repeat split; auto.
  destruct v; cbn; rewrite ?lookup_delete_eq, ?lookup_insert_eq; congruence.
Qed.

Lemma Dock_none_write_clears_witness :
  let st1 := snd (DockProperty.__set__ (VStr "left") empty_state) in
  let st2 := snd (DockProperty.__set__ VNone st1) in
  rules st1 !! "dock" = Some (VStr "left") /\
  rules st2 !! "dock" = None /\
  fst (DockProperty.__get__ st2) = Ok (VStr "_default").
Proof.
  cbn zeta.
  destruct (Dock_none_write_clears (VStr "left") empty_state)
    as (_ & _ & Habsent & Hread & _).
  split; [reflexivity|]. split; [exact Habsent|].
  rewrite Hread. reflexivity.
Defined.

(** A dock that was never written reads as the default. *)
Lemma Dock_default (st : State) :
  rules st !! "dock" = None ->
  fst (DockProperty.__get__ st) = Ok (VStr "_default").
Proof. intros E. unfold DockProperty.__get__. run. rewrite E. reflexivity. Qed.

(** The setter of a name clears its rule on [None] itself. *)
Lemma Name_none_write_clears (name : string) (v : PyVal) (st : State) :
  let st1 := snd (NameProperty.__set__ name v st) in
  let st2 := snd (NameProperty.__set__ name VNone st1) in
  rules st2 !! name = None /\
  fst (NameProperty.__get__ name st2) = Ok (VStr "").
Proof.
  cbn zeta. unfold NameProperty.__set__, NameProperty.__get__. run.
  rewrite lookup_delete_eq. auto.
Qed.

(** ** Color *)

(** C5, on the code: a color write of a value that is neither a [Color],
    a string nor [None] raises nothing: the call returns normally, having
    asked for a repaint and left the store as it was, where the claim has
    it raise an error. *)
Theorem Color_write_of_other_type_is_silent `{External}
    (name : string) (v : PyVal) (st : State) :
  color_accepts v = false ->
  ColorProperty.__set__ name v st
  = (Ok tt, mkState (rules st) (heap st) (calls st ++ [Refresh false])).
Proof.
  intros Hv. unfold ColorProperty.__set__.
  destruct v; try discriminate Hv; reflexivity.
Qed.

Lemma Color_write_of_int_is_silent :
  color_accepts (VInt 5) = false /\
  ColorProperty.__set__ (H := Reference.external) "background" (VInt 5) empty_state
  = (Ok tt, mkState ∅ ∅ [Refresh false]).
Proof.
  split; [reflexivity|].
  exact (Color_write_of_other_type_is_silent (H := Reference.external)
           "background" (VInt 5) empty_state eq_refl).
Defined.

(** The sibling setter of a name raises on a value that is no string. *)
Lemma Name_write_of_other_type_raises (name : string) (z : Z) (st : State) :
  fst (NameProperty.__set__ name (VInt z) st) = Raise (StyleTypeError name).
Proof. reflexivity. Qed.

(** ** Name list *)






















Example NameList_example :
  rules (snd (NameListProperty.__set__ "classes" (VStr "Foo  BAR baz") empty_state))
    !! "classes"
  = Some (VTuple [VStr "foo"; VStr ""; VStr "bar"; VStr "baz"]).
Proof. reflexivity. Qed.

(** ** Fractional *)












(** ** Offset *)

Lemma component_of_run `{External} axis c sc st :
  component_of axis c sc -> OffsetProperty.component c axis st = (Ok sc, st).
Proof.
  intros [s q u Hs | z q Hz | q]; unfold OffsetProperty.component, Scalar_parse; run;
    [rewrite Hs | rewrite Hz |]; reflexivity.
Qed.

Lemma Offset_set_pair `{External} (name : string) (x y : PyVal)
    (sx sy : Scalar.t) (st : State) :
  component_of WIDTH x sx ->
  component_of HEIGHT y sy ->
  OffsetProperty.__set__ name (VTuple [x; y]) st
  = (Ok tt, mkState (<[name := VScalarOffset sx sy]> (rules st)) (heap st)
                    (calls st ++ [Refresh true; SetRule name (VScalarOffset sx sy)])).
Proof.
  intros Hx Hy.
  unfold OffsetProperty.__set__, unpack2, py_iter. cbn. run.
  pose proof (component_of_run WIDTH x sx) as Ex.
  pose proof (component_of_run HEIGHT y sy) as Ey.
  unfold bind. cbn. rewrite (Ex _ Hx). rewrite (Ey _ Hy). cbn.
  rewrite <- app_assoc. reflexivity.
Qed.

(** C8, as the code has it: an offset written as a pair stores the pair of
    scalars of its components, after asking for a new layout. A string the
    scalar parser reads, such as "50%", becomes that scalar with percent
    unit [WIDTH] in the x component and [HEIGHT] in the y component. A
    float becomes a scalar in [CELLS] holding it, and an int a scalar in
    [CELLS] holding the float Python converts it to, with the percent unit
    of its axis. An int too large for a float, in either component, raises
    [OverflowError]: the layout was asked for and nothing is stored. *)
Theorem Offset_write_components `{External} (name : string) (st : State) :
  let stores (sx sy : Scalar.t) :=
    (Ok tt, mkState (<[name := VScalarOffset sx sy]> (rules st)) (heap st)
                    (calls st ++ [Refresh true; SetRule name (VScalarOffset sx sy)])) in
  let refuses (e : Exc) :=
    (Raise e, mkState (rules st) (heap st) (calls st ++ [Refresh true])) in
  (forall (x y : PyVal) (sx sy : Scalar.t),
     component_of WIDTH x sx ->
     component_of HEIGHT y sy ->
     OffsetProperty.__set__ name (VTuple [x; y]) st = stores sx sy
     /\ Scalar.percent_unit sx = WIDTH
     /\ Scalar.percent_unit sy = HEIGHT
     /\ (forall s, x = VStr s -> scalar_literal s = Some (Scalar.value sx, Scalar.unit sx))
     /\ (forall s, y = VStr s -> scalar_literal s = Some (Scalar.value sy, Scalar.unit sy))
     /\ ((forall s, x <> VStr s) -> Scalar.unit sx = CELLS)
     /\ ((forall s, y <> VStr s) -> Scalar.unit sy = CELLS)) /\
  (forall (f : float) (u : Unit),
     scalar_literal "50%" = Some (f, u) ->
     OffsetProperty.__set__ name (VTuple [VStr "50%"; VStr "50%"]) st
     = stores (Scalar.mk f u WIDTH) (Scalar.mk f u HEIGHT)) /\
  (forall fx fy : float,
     OffsetProperty.__set__ name (VTuple [VFloat fx; VFloat fy]) st
     = stores (Scalar.mk fx CELLS WIDTH) (Scalar.mk fy CELLS HEIGHT)) /\
  (forall (zx zy : Z) (fx fy : float),
     float_of_Z zx = Some fx ->
     float_of_Z zy = Some fy ->
     OffsetProperty.__set__ name (VTuple [VInt zx; VInt zy]) st
     = stores (Scalar.mk fx CELLS WIDTH) (Scalar.mk fy CELLS HEIGHT)) /\
  (forall (z : Z) (y : PyVal),
     float_of_Z z = None ->
     OffsetProperty.__set__ name (VTuple [VInt z; y]) st = refuses PyOverflowError) /\
  (forall (x : PyVal) (sx : Scalar.t) (z : Z),
     component_of WIDTH x sx ->
     float_of_Z z = None ->
     OffsetProperty.__set__ name (VTuple [x; VInt z]) st = refuses PyOverflowError).
Proof.
  cbn zeta. repeat apply conj.
  - intros x y sx sy Hx Hy. repeat apply conj.
    + apply Offset_set_pair; assumption.
    + destruct Hx; reflexivity.
    + destruct Hy; reflexivity.
    + intros s ->. inversion Hx; subst. cbn. congruence.
    + intros s ->. inversion Hy; subst. cbn. congruence.
    + intros Hn. destruct Hx; [exfalso; eapply Hn; reflexivity | reflexivity..].
    + intros Hn. destruct Hy; [exfalso; eapply Hn; reflexivity | reflexivity..].
  - intros f u Hs.
    apply Offset_set_pair; apply component_literal; exact Hs.
  - intros fx fy. apply Offset_set_pair; apply component_float.
  - intros zx zy fx fy Hx Hy.
    apply Offset_set_pair; apply component_int; assumption.
  - intros z y Hz.
    unfold OffsetProperty.__set__, unpack2, py_iter. cbn. run.
    unfold OffsetProperty.component. rewrite Hz. reflexivity.
  - intros x sx z Hx Hz.
    unfold OffsetProperty.__set__, unpack2, py_iter. cbn. run.
    unfold bind. cbn. rewrite (component_of_run WIDTH x sx _ Hx). cbn.
    unfold OffsetProperty.component. rewrite Hz. reflexivity.
Qed.

Lemma Offset_write_components_witness :
  let sx := Scalar.mk 50 PERCENT WIDTH in
  let sy := Scalar.mk 50 PERCENT HEIGHT in
  let run v := OffsetProperty.__set__ (H := Reference.external) "offset" v empty_state in
  run (VTuple [VStr "50%"; VStr "50%"])
  = (Ok tt, mkState (<["offset" := VScalarOffset sx sy]> ∅) ∅
                    [Refresh true; SetRule "offset" (VScalarOffset sx sy)]) /\
  run (VTuple [VInt 3; VInt (-2)])
  = (let s := VScalarOffset (Scalar.mk 3 CELLS WIDTH) (Scalar.mk (-2) CELLS HEIGHT) in
     (Ok tt, mkState (<["offset" := s]> ∅) ∅ [Refresh true; SetRule "offset" s])) /\
  run (VTuple [VStr "50%"; VInt (2 ^ 1024)])
  = (Raise PyOverflowError, mkState ∅ ∅ [Refresh true]).
Proof.
  cbn zeta.
  destruct (Offset_write_components (H := Reference.external) "offset" empty_state)
    as (_ & H50 & _ & Hint & _ & Hbig).
  repeat apply conj.
  - exact (H50 50%float PERCENT eq_refl).
  - exact (Hint 3%Z (-2)%Z 3%float (-2)%float eq_refl eq_refl).
  - exact (Hbig (VStr "50%") (Scalar.mk 50 PERCENT WIDTH) (2 ^ 1024)%Z
             (component_literal (H := Reference.external) WIDTH "50%" 50 PERCENT eq_refl)
             eq_refl).
Defined.

(** C8 as stated fails: a numeric component is not always stored.
    An int too large for a float makes the write raise [OverflowError] and
    store nothing, and an int that is no float is stored as the float next
    to it. *)
Lemma Offset_huge_int_raises_overflow :
  let run v := OffsetProperty.__set__ (H := Reference.external) "offset" v empty_state in
  fst (run (VTuple [VInt (2 ^ 1024); VInt 0])) = Raise PyOverflowError /\
  rules (snd (run (VTuple [VInt (2 ^ 1024); VInt 0]))) !! "offset" = None /\
  calls (snd (run (VTuple [VInt (2 ^ 1024); VInt 0]))) = [Refresh true] /\
  rules (snd (run (VTuple [VInt (2 ^ 53 + 1); VInt 0]))) !! "offset"
  = Some (VScalarOffset (Scalar.mk 9007199254740992 CELLS WIDTH)
                        (Scalar.mk 0 CELLS HEIGHT)).
Proof. cbn zeta. repeat apply conj; vm_compute; reflexivity. Qed.

Example Offset_numbers_example :
  rules (snd (OffsetProperty.__set__ (H := Reference.external) "offset"
                (VTuple [VInt 3; VStr "50%"]) empty_state)) !! "offset"
  = Some (VScalarOffset (Scalar.mk 3 CELLS WIDTH) (Scalar.mk 50 PERCENT HEIGHT)).
Proof. reflexivity. Qed.

(** ** Transitions *)

Lemma grows_py_copy v : grows quiet (py_copy v).
Proof.
  destruct v; try (apply grows_raise, _); try (apply grows_ret, _).
  apply grows_bind; [apply _ | apply grows_deref |]. intros d.
  apply grows_bind; [apply _ | apply grows_alloc |]. intros l'.
  apply grows_ret, _.
Qed.

Lemma Transitions_write_is_quiet (v : PyVal) :
  grows quiet (TransitionsProperty.__set__ v).
Proof.
  unfold TransitionsProperty.__set__.
  assert (Hc : grows quiet (let* c := py_copy v in set_rule "transitions" c)).
  { apply grows_bind; [apply _ | apply grows_py_copy |].
    intros c. apply grows_set_rule. }
  destruct v; first [apply grows_clear_rule | exact Hc].
Qed.

(** C9: a transitions write of a mapping stores a copy: the store holds a
    dictionary other than the caller's, with the same items, and whatever
    the caller then does to its own dictionary leaves the stored one as it
    was; a write of [None] clears the rule; and no transitions write, of
    any value, asks for a refresh. *)
Theorem Transitions_write_copies (l : loc) (d : Dict) (st : State) :
  heap st !! l = Some d ->
  let out := TransitionsProperty.__set__ (VDict l) st in
  (exists l' : loc,
     l' <> l /\
     fst out = Ok tt /\
     rules (snd out) !! "transitions" = Some (VDict l') /\
     stored_transitions (snd out) = Some d /\
     forall (f : Dict -> Dict),
       let st' := snd (mutate l f (snd out)) in
       heap st' !! l = Some (f d) /\
       rules st' !! "transitions" = Some (VDict l') /\
       stored_transitions st' = Some d) /\
  TransitionsProperty.__set__ VNone st
  = (Ok tt, mkState (delete "transitions" (rules st)) (heap st)
                    (calls st ++ [ClearRule "transitions"])) /\
  (forall (v : PyVal) (st0 : State),
     exists new, calls (snd (TransitionsProperty.__set__ v st0)) = calls st0 ++ new
                 /\ refreshes new = []).
Proof.
  intros Hl. cbn zeta. repeat apply conj.
  - exists (fresh (dom (heap st))).
    assert (Hne : fresh (dom (heap st)) <> l).
    { intros E. apply (is_fresh (dom (heap st))). rewrite E.
      apply elem_of_dom. eexists. exact Hl. }
    unfold TransitionsProperty.__set__, py_copy, stored_transitions. run.
    rewrite Hl. cbn. rewrite !lookup_insert_eq.
    repeat apply conj; try reflexivity; [exact Hne|].
    intros f.
    assert (Hne' : l <> fresh (dom (heap st))) by (intros E; apply Hne; symmetry; exact E).
    rewrite lookup_alter_eq, (lookup_insert_ne _ _ _ _ Hne), Hl.
    rewrite (lookup_alter_ne _ _ _ _ Hne'), lookup_insert_eq. auto.
  - reflexivity.
  - intros v st0. apply Transitions_write_is_quiet.
Qed.

Lemma Transitions_write_copies_witness :
  let d := [("offset", VObject 7%N)] in
  let st := mkState ∅ {[ 0 := d ]} [] in
  let written := snd (TransitionsProperty.__set__ (VDict 0) st) in
  let later := snd (mutate 0 (dict_setitem "offset" (VObject 9%N)) written) in
  heap st !! 0 = Some d /\
  heap later !! 0 = Some [("offset", VObject 9%N)] /\
  stored_transitions later = Some d.
Proof.
  cbn zeta.
  assert (Hl : heap (mkState ∅ {[ 0 := [("offset", VObject 7%N)] ]} []) !! 0
               = Some [("offset", VObject 7%N)]) by reflexivity.
  destruct (Transitions_write_copies 0 [("offset", VObject 7%N)]
              (mkState ∅ {[ 0 := [("offset", VObject 7%N)] ]} []) Hl)
    as ((l' & _ & _ & _ & _ & Hf) & _ & _).
  destruct (Hf (dict_setitem "offset" (VObject 9%N))) as (Hcaller & _ & Hstored).
  repeat apply conj; [exact Hl | exact Hcaller | exact Hstored].
Defined.

(** ** Writes that are refused *)

Lemma check_words_valid (ws : list string) (st : State) :
  forallb StyleFlagsProperty.valid_word ws = true ->
  StyleFlagsProperty.check_words ws st = (Ok tt, st).
Proof.
  induction ws as [|w ws IH]; cbn; [reflexivity|].
  intros Hv. apply andb_prop in Hv as [Hw Hws].
  rewrite Hw. cbn. apply IH, Hws.
Qed.

Lemma check_words_invalid (ws : list string) :
  forallb StyleFlagsProperty.valid_word ws = false ->
  exists w, In w ws /\ StyleFlagsProperty.valid_word w = false /\
            forall st, StyleFlagsProperty.check_words ws st
                       = (Raise (StyleValueError (UnknownWord w)), st).
Proof.
  induction ws as [|w ws IH]; cbn; [discriminate|].
  destruct (StyleFlagsProperty.valid_word w) eqn:Hw; cbn.
  - intros Hws. destruct (IH Hws) as (w' & Hin & Hw' & Hrun).
    exists w'. auto.
  - intros _. exists w. auto.
Qed.

(** C4: a scalar write whose value reaches the unit test with a unit
    outside the descriptor's set raises the units error and changes
    nothing; a style-flags write with a word outside the vocabulary raises
    the unknown-word error, naming such a word, and leaves the stored rules
    as they were; a write of "bold italic" passes the vocabulary test and
    stores the style the style parser decodes it to, which carries both
    attributes when the parser says so. *)
Theorem Refused_writes_keep_the_store `{External} (st : State) :
  (forall (self : ScalarProperty.t) (value : PyVal) (s : Scalar.t),
     ScalarProperty.new_value_of value = Ok s ->
     Scalar.unit s ∉ ScalarProperty.units self ->
     ScalarProperty.__set__ self value st
     = (Raise (StyleValueError
                 (UnitsMustBeOneOf (ScalarProperty.name self)
                                   (ScalarProperty.units self))), st)) /\
  (forall (self : ScalarProperty.t) (token : string) (q : float) (u : Unit),
     scalar_literal token = Some (q, u) ->
     u ∉ ScalarProperty.units self ->
     ScalarProperty.__set__ self (VStr token) st
     = (Raise (StyleValueError
                 (UnitsMustBeOneOf (ScalarProperty.name self)
                                   (ScalarProperty.units self))), st)) /\
  (forall (name flags : string),
     forallb StyleFlagsProperty.valid_word (StyleFlagsProperty.words flags) = false ->
     exists w,
       In w (StyleFlagsProperty.words flags) /\
       ~ In w StyleFlagsProperty._VALID_PROPERTIES /\
       StyleFlagsProperty.__set__ name (VStr flags) st
       = (Raise (StyleValueError (UnknownWord w)),
          mkState (rules st) (heap st) (calls st ++ [Refresh false]))) /\
  (forall (name : string) (style : Style),
     Style_parse "bold italic" = Some style ->
     StyleFlagsProperty.__set__ name (VStr "bold italic") st
     = (Ok tt, mkState (<[name := VStyle style]> (rules st)) (heap st)
                       (calls st ++ [Refresh false; SetRule name (VStyle style)]))
     /\ (style_has "bold" style = true -> style_has "italic" style = true ->
         exists stored,
           rules (snd (StyleFlagsProperty.__set__ name (VStr "bold italic") st))
             !! name = Some (VStyle stored)
           /\ style_has "bold" stored = true /\ style_has "italic" stored = true)).
Proof.
  assert (HA : forall (self : ScalarProperty.t) (value : PyVal) (s : Scalar.t),
     ScalarProperty.new_value_of value = Ok s ->
     Scalar.unit s ∉ ScalarProperty.units self ->
     ScalarProperty.__set__ self value st
     = (Raise (StyleValueError
                 (UnitsMustBeOneOf (ScalarProperty.name self)
                                   (ScalarProperty.units self))), st)).
  { intros self value s Hs Hu. unfold ScalarProperty.__set__.
    destruct value; try discriminate Hs; run; rewrite Hs;
      rewrite (bool_decide_eq_false_2 _ Hu); reflexivity. }
  repeat apply conj.
  - exact HA.
  - intros self token q u Hq Hu.
    apply (HA self (VStr token) (Scalar.mk q u WIDTH)); [|exact Hu].
    cbn. unfold Scalar_parse. rewrite Hq. reflexivity.
  - intros name flags Hbad.
    destruct (check_words_invalid _ Hbad) as (w & Hin & Hw & Hrun).
    exists w. repeat apply conj; [exact Hin | |].
    + unfold StyleFlagsProperty.valid_word in Hw.
      apply bool_decide_eq_false_1 in Hw. rewrite <- list_elem_of_In. exact Hw.
    + unfold StyleFlagsProperty.__set__. run. rewrite Hrun. reflexivity.
  - intros name style Hp.
    assert (E : StyleFlagsProperty.__set__ name (VStr "bold italic") st
     = (Ok tt, mkState (<[name := VStyle style]> (rules st)) (heap st)
                       (calls st ++ [Refresh false; SetRule name (VStyle style)]))).
    { unfold StyleFlagsProperty.__set__. run.
      rewrite check_words_valid by reflexivity.
      rewrite Hp. cbn. rewrite <- app_assoc. reflexivity. }
    split; [exact E|].
    intros Hb Hi. exists style. rewrite E. cbn. rewrite lookup_insert_eq. auto.
Qed.

Lemma Refused_writes_keep_the_store_witness :
  let width := ScalarProperty.__init__ "width" (Some [CELLS; PERCENT]) WIDTH in
  let st := mkState {[ "width" := VScalar (Scalar.mk 3 CELLS WIDTH);
                       "text_style" := VStyle Style_null ]} ∅ [] in
  ScalarProperty.__set__ (H := Reference.external) width (VStr "5fr") st
  = (Raise (StyleValueError (UnitsMustBeOneOf "width" [CELLS; PERCENT])), st) /\
  (exists w,
     StyleFlagsProperty.__set__ (H := Reference.external) "text_style"
       (VStr "bold flarp") st
     = (Raise (StyleValueError (UnknownWord w)),
        mkState (rules st) ∅ [Refresh false])) /\
  exists stored,
    rules (snd (StyleFlagsProperty.__set__ (H := Reference.external) "text_style"
                  (VStr "bold italic") st)) !! "text_style" = Some (VStyle stored)
    /\ style_has "bold" stored = true /\ style_has "italic" stored = true.
Proof.
  cbn zeta.
  destruct (Refused_writes_keep_the_store (H := Reference.external)
    (mkState {[ "width" := VScalar (Scalar.mk 3 CELLS WIDTH);
                "text_style" := VStyle Style_null ]} ∅ []))
    as (_ & Hscalar & Hflags & Hbold).
  repeat apply conj.
  - apply (Hscalar (ScalarProperty.__init__ "width" (Some [CELLS; PERCENT]) WIDTH)
             "5fr" 5%float FRACTION eq_refl).
    cbn. intros Hin. apply list_elem_of_In in Hin. cbn in Hin.
    destruct Hin as [E|[E|[]]]; discriminate E.
  - destruct (Hflags "text_style" "bold flarp" eq_refl) as (w & _ & _ & E).
    exists w. exact E.
  - destruct (Hbold "text_style"
                (mkStyle None None [("bold", true); ("italic", true)]) eq_refl)
      as (_ & Hhas).
    exact (Hhas eq_refl eq_refl).
Defined.

Example StyleFlags_flarp_example :
  fst (StyleFlagsProperty.__set__ (H := Reference.external) "text_style"
         (VStr "bold flarp") empty_state)
  = Raise (StyleValueError (UnknownWord "flarp")).
Proof. reflexivity. Qed.

(** ** Refresh requests *)

(** Decomposes a computation along its binds and case distinctions. *)
Ltac grow :=
  repeat first
    [ apply grows_set_rule | apply grows_clear_rule | apply grows_deref
    | apply grows_alloc | apply grows_py_iter | apply grows_py_len
    | apply grows_unpack2 | apply grows_unpack4 | apply grows_py_getitem0
    | apply grows_py_copy | apply grows_refresh_false
    | (apply grows_ret; apply _) | (apply grows_raise; apply _)
    | (apply grows_lift; apply _)
    | (eapply grows_weaken; [exact quiet_paint_only|];
       first [ apply grows_set_rule | apply grows_clear_rule | apply grows_py_iter
             | apply grows_py_len | apply grows_unpack2 | apply grows_unpack4
             | apply grows_py_getitem0 ])
    | (apply grows_bind; [apply _ | | intros])
    | match goal with
      | |- grows _ (match ?x with _ => _ end) => destruct x
      end ].

(** The scalar setter ends in one of three ways: [None] clears the rule,
    a refused value raises with nothing done, an accepted one is stored and
    a repaint is asked for after the store. *)
Lemma Scalar_write_outcome `{External} (self : ScalarProperty.t) (v : PyVal)
    (st : State) :
  let name := ScalarProperty.name self in
  (v = VNone /\
   ScalarProperty.__set__ self v st
   = (Ok tt, mkState (delete name (rules st)) (heap st)
                     (calls st ++ [ClearRule name]))) \/
  (exists e, ScalarProperty.__set__ self v st = (Raise e, st)) \/
  (exists s, v <> VNone /\
     ScalarProperty.__set__ self v st
     = (Ok tt, mkState (<[name := VScalar s]> (rules st)) (heap st)
                       (calls st ++ [SetRule name (VScalar s); Refresh false]))).
Proof.
  cbn zeta.
  assert (Hbody : forall v, v <> VNone ->
    (exists e, (let* new_value := lift (ScalarProperty.new_value_of v) in
      if negb (bool_decide (Scalar.unit new_value ∈ ScalarProperty.units self)) then
        raise (StyleValueError (UnitsMustBeOneOf (ScalarProperty.name self)
                                                 (ScalarProperty.units self)))
      else
        let new_value :=
          if Scalar.is_percent new_value
          then Scalar.mk (Scalar.value new_value) (ScalarProperty.percent_unit self) WIDTH
          else new_value in
        set_rule (ScalarProperty.name self) (VScalar new_value);;
        refresh false) st = (Raise e, st)) \/
    (exists s, v <> VNone /\
      (let* new_value := lift (ScalarProperty.new_value_of v) in
      if negb (bool_decide (Scalar.unit new_value ∈ ScalarProperty.units self)) then
        raise (StyleValueError (UnitsMustBeOneOf (ScalarProperty.name self)
                                                 (ScalarProperty.units self)))
      else
        let new_value :=
          if Scalar.is_percent new_value
          then Scalar.mk (Scalar.value new_value) (ScalarProperty.percent_unit self) WIDTH
          else new_value in
        set_rule (ScalarProperty.name self) (VScalar new_value);;
        refresh false) st
      = (Ok tt, mkState (<[ScalarProperty.name self := VScalar s]> (rules st)) (heap st)
                  (calls st ++ [SetRule (ScalarProperty.name self) (VScalar s);
                                Refresh false])))).
  { intros v0 Hv0. run.
    destruct (ScalarProperty.new_value_of v0) as [s|e]; [|left; eauto].
    destruct (bool_decide (Scalar.unit s ∈ ScalarProperty.units self)); cbn;
      [|left; eauto].
    right. eexists. split; [exact Hv0|]. rewrite <- app_assoc. reflexivity. }
  unfold ScalarProperty.__set__.
  destruct v; try (right; apply Hbody; discriminate).
  left. split; reflexivity.
Qed.

Lemma py_iter_state (v : PyVal) (st : State) : snd (py_iter v st) = st.
Proof.
  unfold py_iter. destruct (tuple_items v); [reflexivity|].
  destruct v; try reflexivity. run. destruct (heap st !! l); reflexivity.
Qed.

Lemma unpack2_state (v : PyVal) (st : State) : snd (unpack2 v st) = st.
Proof.
  unfold unpack2, bind. pose proof (py_iter_state v st) as E.
  destruct (py_iter v st) as [[items|e] st']; cbn in E; subst st'; [|reflexivity].
  destruct items as [|a [|b [|c items]]]; reflexivity.
Qed.

(** The box setter either completes, with one rule-store call followed by
    the repaint request, or raises with nothing done. *)
Lemma Box_write_outcome `{External} (name : string) (border : PyVal) (st : State) :
  (exists op st',
     BoxProperty.__set__ name border st = (Ok tt, st') /\
     calls st' = calls st ++ [op; Refresh false] /\ quiet [op]) \/
  (exists e, BoxProperty.__set__ name border st = (Raise e, st)).
Proof.
  assert (Hbody :
    (exists op st',
      ((let* tc := unpack2 border in
        let '(_type, color) := tc in
        let* new_value :=
          match color with
          | VStr s =>
              match Color_parse s with
              | Some c => ret (VTuple [_type; VColor c])
              | None => raise ColorParseError
              end
          | VColor c => ret (VTuple [_type; color])
          | _ => ret border
          end in
        set_rule name new_value);; refresh false) st = (Ok tt, st') /\
      calls st' = calls st ++ [op; Refresh false] /\ quiet [op]) \/
    (exists e,
      ((let* tc := unpack2 border in
        let '(_type, color) := tc in
        let* new_value :=
          match color with
          | VStr s =>
              match Color_parse s with
              | Some c => ret (VTuple [_type; VColor c])
              | None => raise ColorParseError
              end
          | VColor c => ret (VTuple [_type; color])
          | _ => ret border
          end in
        set_rule name new_value);; refresh false) st = (Raise e, st))).
  { run. pose proof (unpack2_state border st) as E.
    destruct (unpack2 border st) as [[[_type color]|e] st']; cbn in E; subst st';
      [|right; eauto].
    destruct color; run; try destruct (Color_parse s); cbn;
      first [ right; eexists; reflexivity
            | left; do 2 eexists; rewrite <- app_assoc;
              repeat split; reflexivity ]. }
  unfold BoxProperty.__set__.
  destruct border; try exact Hbody.
  left. run. do 2 eexists. rewrite <- app_assoc. repeat split; reflexivity.
Qed.

Lemma grows_Box `{External} (name : string) (border : PyVal) :
  grows paint_only (BoxProperty.__set__ name border).
Proof.
  intros st. destruct (Box_write_outcome name border st)
    as [(op & st' & E & Hc & Hq) | (e & E)]; rewrite E; cbn.
  - eexists. split; [exact Hc|]. unfold paint_only.
    destruct op; cbn in *; try discriminate Hq; repeat constructor.
  - exists []. rewrite app_nil_r. split; [reflexivity | constructor].
Qed.

Lemma refreshes_first_intro {A} P layout (k : M A) :
  grows P k -> refreshes_first layout P (refresh layout;; k).
Proof. intros Hk st. apply refresh_first, Hk. Qed.

Lemma grows_Spacing_unpack (pad : PyVal) : grows quiet (Spacing_unpack pad).
Proof. unfold Spacing_unpack. grow. Qed.

Lemma grows_check_words (ws : list string) :
  grows quiet (StyleFlagsProperty.check_words ws).
Proof.
  induction ws as [|w ws IH]; cbn; [apply grows_ret, _|].
  destruct (StyleFlagsProperty.valid_word w); cbn; [exact IH | apply grows_raise, _].
Qed.

Lemma Spacing_refreshes_first name v :
  refreshes_first true quiet (SpacingProperty.__set__ name v).
Proof.
  apply refreshes_first_intro.
  destruct v; try apply grows_clear_rule;
    (apply grows_bind; [apply _ | apply grows_Spacing_unpack | intros; grow]).
Qed.

Lemma Docks_refreshes_first v :
  refreshes_first true quiet (DocksProperty.__set__ v).
Proof. apply refreshes_first_intro. grow. Qed.

Lemma Dock_refreshes_first v :
  refreshes_first true quiet (DockProperty.__set__ v).
Proof. apply refreshes_first_intro. grow. Qed.

Lemma Layout_refreshes_first `{External} v :
  refreshes_first true quiet (LayoutProperty.__set__ v).
Proof. apply refreshes_first_intro. grow. Qed.

Lemma grows_Offset_component `{External} c axis :
  grows quiet (OffsetProperty.component c axis).
Proof. unfold OffsetProperty.component. grow. Qed.

Lemma Offset_refreshes_first `{External} name v :
  refreshes_first true quiet (OffsetProperty.__set__ name v).
Proof.
  apply refreshes_first_intro.
  destruct v; try apply grows_clear_rule; try apply grows_set_rule;
    (apply grows_bind; [apply _ | apply grows_unpack2 |]; intros [x y];
     apply grows_bind; [apply _ | apply grows_Offset_component |]; intros sx;
     apply grows_bind; [apply _ | apply grows_Offset_component |]; intros sy;
     apply grows_set_rule).
Qed.

Lemma Name_refreshes_first name v :
  refreshes_first true quiet (NameProperty.__set__ name v).
Proof. apply refreshes_first_intro. grow. Qed.

Lemma NameList_refreshes_first name v :
  refreshes_first true quiet (NameListProperty.__set__ name v).
Proof. apply refreshes_first_intro. grow. Qed.

Lemma StringEnum_refreshes_first self v :
  refreshes_first false quiet (StringEnumProperty.__set__ self v).
Proof.
  apply refreshes_first_intro. unfold StringEnumProperty.not_in_valid_values. grow.
Qed.

Lemma Color_refreshes_first `{External} name v :
  refreshes_first false quiet (ColorProperty.__set__ name v).
Proof. apply refreshes_first_intro. grow. Qed.

Lemma grows_StyleFlags_body `{External} name flags :
  grows quiet (StyleFlagsProperty.check_words (StyleFlagsProperty.words flags);;
               match Style_parse flags with
               | Some style => set_rule name (VStyle style)
               | None => raise StyleSyntaxError
               end).
Proof.
  apply grows_bind; [apply _ | apply grows_check_words | intros; grow].
Qed.

Lemma StyleFlags_refreshes_first `{External} name v :
  refreshes_first false quiet (StyleFlagsProperty.__set__ name v).
Proof.
  apply refreshes_first_intro.
  destruct v; first [apply grows_StyleFlags_body | grow].
Qed.

Lemma Fractional_refreshes_first `{External} self v :
  refreshes_first false quiet (FractionalProperty.__set__ self v).
Proof. apply refreshes_first_intro. grow. Qed.

Lemma refreshes_first_grows {A} P `{!Sequential P} (m : M A) :
  P [Refresh false] -> refreshes_first false P m -> grows P m.
Proof.
  intros HP Hm st. destruct (Hm st) as (new & E & Hnew).
  exists ([Refresh false] ++ new). split; [exact E | apply seq_app; assumption].
Qed.

Lemma paint_only_refresh_false : paint_only [Refresh false].
Proof. repeat constructor. Qed.

Lemma grows_Color `{External} name v :
  grows paint_only (ColorProperty.__set__ name v).
Proof.
  apply refreshes_first_grows; [apply _ | exact paint_only_refresh_false |].
  intros st. destruct (Color_refreshes_first name v st) as (new & E & Hq).
  exists new. split; [exact E | apply quiet_paint_only, Hq].
Qed.

Lemma grows_StyleFlags `{External} name v :
  grows paint_only (StyleFlagsProperty.__set__ name v).
Proof.
  apply refreshes_first_grows; [apply _ | exact paint_only_refresh_false |].
  intros st. destruct (StyleFlags_refreshes_first name v st) as (new & E & Hq).
  exists new. split; [exact E | apply quiet_paint_only, Hq].
Qed.

Lemma Border_refreshes_first `{External} name v :
  refreshes_first false paint_only (BorderProperty.__set__ name v).
Proof.
  unfold BorderProperty.__set__, BorderProperty._properties, BorderProperty.setattr.
  cbv iota beta.
  apply refreshes_first_intro.
  repeat match goal with
    | |- grows _ (BoxProperty.__set__ _ _) => apply grows_Box
    | |- grows _ (raise _) => apply grows_raise; apply _
    | |- grows _ (clear_rule _) =>
        eapply grows_weaken; [exact quiet_paint_only | apply grows_clear_rule]
    | |- grows _ (py_len _) =>
        eapply grows_weaken; [exact quiet_paint_only | apply grows_py_len]
    | |- grows _ (unpack2 _) =>
        eapply grows_weaken; [exact quiet_paint_only | apply grows_unpack2]
    | |- grows _ (unpack4 _) =>
        eapply grows_weaken; [exact quiet_paint_only | apply grows_unpack4]
    | |- grows _ (py_getitem0 _) =>
        eapply grows_weaken; [exact quiet_paint_only | apply grows_py_getitem0]
    | |- grows _ (bind _ _) => apply grows_bind; [apply _ | | intros]
    | |- grows _ (let '(_, _) := ?p in _) => destruct p
    | |- grows _ (if ?b then _ else _) => destruct b
    | |- grows _ (match ?x with _ => _ end) => destruct x
    end.
Qed.

Lemma Style_refreshes_first `{External} v :
  refreshes_first false paint_only (StyleProperty.__set__ v).
Proof.
  unfold StyleProperty.__set__.
  apply refreshes_first_intro.
  repeat first
    [ apply grows_Color | apply grows_StyleFlags
    | (apply grows_ret; apply _) | (apply grows_raise; apply _)
    | (eapply grows_weaken; [exact quiet_paint_only|]; apply grows_clear_rule)
    | (apply grows_bind; [apply _ | | intros])
    | match goal with
      | |- grows _ (if ?b then _ else _) => destruct b
      | |- grows _ (match ?x with _ => _ end) => destruct x
      end ].
Qed.

(** C10: the setters of the enumerated-string, style-flags, name and
    fractional descriptors call the refresh collaborator before they look
    at the value, so the request is in the log however the write ends, a
    raised error included; the scalar setter asks for a repaint only as its
    last step, after the store, so a scalar write that raises leaves the
    state, log included, as it was (and a scalar write of [None], which
    stores nothing, only clears the rule). *)
Theorem Refresh_precedes_validation `{External} :
  (forall self v, refreshes_first false quiet (StringEnumProperty.__set__ self v)) /\
  (forall name v, refreshes_first false quiet (StyleFlagsProperty.__set__ name v)) /\
  (forall name v, refreshes_first true quiet (NameProperty.__set__ name v)) /\
  (forall self v, refreshes_first false quiet (FractionalProperty.__set__ self v)) /\
  (forall self v st e,
     fst (ScalarProperty.__set__ self v st) = Raise e ->
     snd (ScalarProperty.__set__ self v st) = st) /\
  (forall self v st,
     v <> VNone ->
     fst (ScalarProperty.__set__ self v st) = Ok tt ->
     exists s,
       calls (snd (ScalarProperty.__set__ self v st))
       = calls st ++ [SetRule (ScalarProperty.name self) (VScalar s); Refresh false]) /\
  (forall self st,
     calls (snd (ScalarProperty.__set__ self VNone st))
     = calls st ++ [ClearRule (ScalarProperty.name self)]).
Proof.
  repeat apply conj; [| | | | | | reflexivity].
  - intros. apply StringEnum_refreshes_first.
  - intros. apply StyleFlags_refreshes_first.
  - intros. apply Name_refreshes_first.
  - intros. apply Fractional_refreshes_first.
  - intros self v st e.
    destruct (Scalar_write_outcome self v st) as [[_ E]|[(e' & E)|(s & _ & E)]];
      rewrite E; cbn; try discriminate; reflexivity.
  - intros self v st Hv.
    destruct (Scalar_write_outcome self v st) as [[Hn _]|[(e' & E)|(s & _ & E)]];
      [contradiction | |]; rewrite E; cbn; [discriminate|].
    intros _. exists s. reflexivity.
Qed.

Lemma Refresh_precedes_validation_witness :
  let display := StringEnumProperty.mk "display" ["block"; "none"] "block" in
  let width := ScalarProperty.__init__ "width" (Some [CELLS]) WIDTH in
  let enum := StringEnumProperty.__set__ display (VStr "sideways") empty_state in
  let bad := ScalarProperty.__set__ (H := Reference.external) width (VStr "5fr") empty_state in
  let good := ScalarProperty.__set__ (H := Reference.external) width (VStr "5") empty_state in
  (exists e new, fst enum = Raise e /\ calls (snd enum) = Refresh false :: new) /\
  (exists e, fst bad = Raise e /\ snd bad = empty_state) /\
  (exists s, calls (snd good) = [SetRule "width" (VScalar s); Refresh false]).
Proof.
  cbn zeta.
  destruct (Refresh_precedes_validation (H := Reference.external))
    as (Henum & _ & _ & _ & Hbad & Hgood & _).
  repeat apply conj.
  - destruct (Henum (StringEnumProperty.mk "display" ["block"; "none"] "block")
                (VStr "sideways") empty_state) as (new & E & _).
    eexists. exists new. split; [reflexivity | exact E].
  - eexists. split; [reflexivity|]. eapply Hbad. reflexivity.
  - apply (Hgood (ScalarProperty.__init__ "width" (Some [CELLS]) WIDTH)
             (VStr "5") empty_state); [discriminate | reflexivity].
Defined.

(** C3, as the code has it: every write to a spacing, docks, dock, layout,
    offset, name or name-list property first calls [refresh(layout=True)]
    and asks for nothing else; every write to a border, text-style,
    enumerated, color, style-flags or fractional property first calls the
    repaint-only [refresh()], and no request for a layout follows; a scalar
    write of a value and a box-edge write ask for the repaint once, after
    the store, when they complete, and ask for nothing when they raise; a
    transitions write asks for no refresh. *)
Theorem Refresh_by_kind `{External} :
  ((forall name v, refreshes_first true quiet (SpacingProperty.__set__ name v)) /\
   (forall v, refreshes_first true quiet (DocksProperty.__set__ v)) /\
   (forall v, refreshes_first true quiet (DockProperty.__set__ v)) /\
   (forall v, refreshes_first true quiet (LayoutProperty.__set__ v)) /\
   (forall name v, refreshes_first true quiet (OffsetProperty.__set__ name v)) /\
   (forall name v, refreshes_first true quiet (NameProperty.__set__ name v)) /\
   (forall name v, refreshes_first true quiet (NameListProperty.__set__ name v))) /\
  ((forall name v, refreshes_first false paint_only (BorderProperty.__set__ name v)) /\
   (forall v, refreshes_first false paint_only (StyleProperty.__set__ v)) /\
   (forall self v, refreshes_first false quiet (StringEnumProperty.__set__ self v)) /\
   (forall name v, refreshes_first false quiet (ColorProperty.__set__ name v)) /\
   (forall name v, refreshes_first false quiet (StyleFlagsProperty.__set__ name v)) /\
   (forall self v, refreshes_first false quiet (FractionalProperty.__set__ self v))) /\
  (forall self v st,
     v <> VNone ->
     (exists e, ScalarProperty.__set__ self v st = (Raise e, st)) \/
     (exists s,
        ScalarProperty.__set__ self v st
        = (Ok tt, mkState (<[ScalarProperty.name self := VScalar s]> (rules st))
                          (heap st)
                          (calls st ++ [SetRule (ScalarProperty.name self) (VScalar s);
                                        Refresh false])))) /\
  (forall name v st,
     (exists op st',
        BoxProperty.__set__ name v st = (Ok tt, st') /\
        calls st' = calls st ++ [op; Refresh false] /\ quiet [op]) \/
     (exists e, BoxProperty.__set__ name v st = (Raise e, st))) /\
  (forall v, grows quiet (TransitionsProperty.__set__ v)).
Proof.
  repeat apply conj; intros.
  - apply Spacing_refreshes_first.
  - apply Docks_refreshes_first.
  - apply Dock_refreshes_first.
  - apply Layout_refreshes_first.
  - apply Offset_refreshes_first.
  - apply Name_refreshes_first.
  - apply NameList_refreshes_first.
  - apply Border_refreshes_first.
  - apply Style_refreshes_first.
  - apply StringEnum_refreshes_first.
  - apply Color_refreshes_first.
  - apply StyleFlags_refreshes_first.
  - apply Fractional_refreshes_first.
  - destruct (Scalar_write_outcome self v st) as [[Hn _]|[E|(s & _ & E)]];
      [contradiction | left; exact E | right; exists s; exact E].
  - apply Box_write_outcome.
  - apply Transitions_write_is_quiet.
Qed.

Lemma Refresh_by_kind_witness :
  let width := ScalarProperty.__init__ "width" (Some [CELLS]) WIDTH in
  (exists new,
     calls (snd (SpacingProperty.__set__ "margin" (VTuple [VInt 1; VInt 2]) empty_state))
     = Refresh true :: new /\ quiet new) /\
  ((exists e, ScalarProperty.__set__ (H := Reference.external) width (VFloat 2) empty_state
              = (Raise e, empty_state)) \/
   (exists s, ScalarProperty.__set__ (H := Reference.external) width (VFloat 2) empty_state
              = (Ok tt, mkState (<["width" := VScalar s]> ∅) ∅
                                [SetRule "width" (VScalar s); Refresh false]))).
Proof.
  cbn zeta.
  destruct (Refresh_by_kind (H := Reference.external))
    as ((Hspacing & _) & _ & Hscalar & _).
  split.
  - exact (Hspacing "margin" (VTuple [VInt 1; VInt 2]) empty_state).
  - apply (Hscalar (ScalarProperty.__init__ "width" (Some [CELLS]) WIDTH)
             (VFloat 2) empty_state). discriminate.
Defined.

(** C3 as stated fails: a scalar write the setter refuses (a scalar in
    fractions written to a property that allows cells only) raises before
    the setter reaches its refresh call, so the log holds no repaint
    request, nor any call at all. *)
Lemma Scalar_refused_write_requests_no_refresh :
  let width := ScalarProperty.__init__ "width" (Some [CELLS]) WIDTH in
  let out := ScalarProperty.__set__ (H := Reference.external) width
               (VScalar (Scalar.mk 1 FRACTION WIDTH)) empty_state in
  fst out = Raise (StyleValueError (UnitsMustBeOneOf "width" [CELLS])) /\
  calls (snd out) = [] /\
  ~ In (Refresh false) (calls (snd out)).
Proof. cbn zeta. repeat apply conj; [reflexivity | reflexivity | intros []]. Qed.

(** * Further properties of the descriptors *)

(** ** Reading an edge and a border *)

Lemma py_bool_state (v : PyVal) (st : State) : snd (py_bool v st) = st.
Proof.
  destruct v; try reflexivity. unfold py_bool. run.
  destruct (heap st !! l); reflexivity.
Qed.

(** A stored pair reads back as the pair. *)
Lemma Box_get_stored (name : string) (k c : PyVal) (st : State) :
  rules st !! name = Some (VTuple [k; c]) ->
  BoxProperty.__get__ name st = (Ok (k, c), st).
Proof.
  intros E. unfold BoxProperty.__get__, py_or, py_bool, unpack2, py_iter. run.
  rewrite E. reflexivity.
Qed.

(** An absent rule reads as the default edge. *)
Lemma Box_get_absent (name : string) (st : State) :
  rules st !! name = None ->
  BoxProperty.__get__ name st = (Ok (VStr "", VColor Color_default), st).
Proof.
  intros E. unfold BoxProperty.__get__, py_or, py_bool, unpack2, py_iter. run.
  rewrite E. reflexivity.
Qed.

(** What a completed box write of a pair leaves behind. *)
Lemma Box_set_color `{External} (name : string) (kind : PyVal) (c : Color)
    (st : State) :
  BoxProperty.__set__ name (VTuple [kind; VColor c]) st
  = (Ok tt, mkState (<[name := VTuple [kind; VColor c]]> (rules st)) (heap st)
              (calls st ++ [SetRule name (VTuple [kind; VColor c]); Refresh false])).
Proof.
  unfold BoxProperty.__set__, unpack2, py_iter. cbn. run. cbn.
  rewrite <- app_assoc. reflexivity.
Qed.

Lemma Box_set_parsed `{External} (name : string) (kind : PyVal) (s : string)
    (c : Color) (st : State) :
  Color_parse s = Some c ->
  BoxProperty.__set__ name (VTuple [kind; VStr s]) st
  = (Ok tt, mkState (<[name := VTuple [kind; VColor c]]> (rules st)) (heap st)
              (calls st ++ [SetRule name (VTuple [kind; VColor c]); Refresh false])).
Proof.
  intros Hp. unfold BoxProperty.__set__, unpack2, py_iter. cbn. run.
  rewrite Hp. cbn. rewrite <- app_assoc. reflexivity.
Qed.

(** A box edge written as (kind, color) reads back as the pair with the
    color as a [Color]: the color written when it is one, the color the
    color parser reads when it is a string the parser accepts. *)
Theorem Box_write_then_read `{External} (name : string) (kind : PyVal) (st : State) :
  (forall c : Color,
     let st1 := snd (BoxProperty.__set__ name (VTuple [kind; VColor c]) st) in
     BoxProperty.__get__ name st1 = (Ok (kind, VColor c), st1)) /\
  (forall (s : string) (c : Color),
     Color_parse s = Some c ->
     let st1 := snd (BoxProperty.__set__ name (VTuple [kind; VStr s]) st) in
     fst (BoxProperty.__set__ name (VTuple [kind; VStr s]) st) = Ok tt /\
     BoxProperty.__get__ name st1 = (Ok (kind, VColor c), st1)).
Proof.
  split.
  - intros c st1. subst st1. rewrite Box_set_color.
    apply Box_get_stored. cbn. apply lookup_insert_eq.
  - intros s c Hp st1. subst st1. rewrite (Box_set_parsed _ _ _ _ _ Hp).
    split; [reflexivity|]. apply Box_get_stored. cbn. apply lookup_insert_eq.
Qed.

Lemma Box_write_then_read_witness :
  let red := mkColor "red" 1 (Some 1%Z) None in
  let st1 := snd (BoxProperty.__set__ (H := Reference.external) "border_top"
                    (VTuple [VStr "solid"; VStr "red"]) empty_state) in
  BoxProperty.__get__ "border_top" st1 = (Ok (VStr "solid", VColor red), st1).
Proof.
  cbn zeta.
  destruct (Box_write_then_read (H := Reference.external) "border_top"
              (VStr "solid") empty_state) as [_ Hs].
  destruct (Hs "red" (mkColor "red" 1 (Some 1%Z) None) eq_refl) as [_ E].
  exact E.
Defined.

(** A box edge that was never written, or was written [None], reads as the
    default edge: no box type, the default color. *)
Theorem Box_clear_then_read `{External} (name : string) (v : PyVal) (st : State) :
  let st1 := snd (BoxProperty.__set__ name v st) in
  let st2 := snd (BoxProperty.__set__ name VNone st1) in
  BoxProperty.__get__ name st2 = (Ok (VStr "", VColor Color_default), st2) /\
  rules st2 !! name = None.
Proof.
  cbn zeta.
  assert (E : rules (snd (BoxProperty.__set__ name VNone
                            (snd (BoxProperty.__set__ name v st)))) !! name = None).
  { unfold BoxProperty.__set__ at 1. run. apply lookup_delete_eq. }
  split; [apply Box_get_absent, E | exact E].
Qed.

(** A border reads as the four edges its rules hold. *)
Lemma Border_get_of_edges (name : string) (st : State)
    (k1 c1 k2 c2 k3 c3 k4 c4 : PyVal) :
  edges_after name st
  = [Some (VTuple [k1; c1]); Some (VTuple [k2; c2]);
     Some (VTuple [k3; c3]); Some (VTuple [k4; c4])] ->
  BorderProperty.__get__ name st
  = (Ok (Edges.mk (k1, c1) (k2, c2) (k3, c3) (k4, c4)), st).
Proof.
  unfold edges_after, BorderProperty.__get__, BorderProperty.getattr. cbn.
  intros E. injection E as E1 E2 E3 E4.
  unfold bind.
  rewrite (Box_get_stored _ _ _ _ E1), (Box_get_stored _ _ _ _ E2),
          (Box_get_stored _ _ _ _ E3), (Box_get_stored _ _ _ _ E4).
  reflexivity.
Qed.

(** A border written as one (kind, color) pair reads as four edges with
    that pair; written as a list of four pairs it reads as those four, in
    the order top, right, bottom, left. *)
Theorem Border_write_then_read `{External} (name : string) (st : State) :
  (forall (k : PyVal) (c : Color),
     let st1 := snd (BorderProperty.__set__ name (VTuple [k; VColor c]) st) in
     BorderProperty.__get__ name st1
     = (Ok (Edges.mk (k, VColor c) (k, VColor c) (k, VColor c) (k, VColor c)), st1)) /\
  (forall (k1 k2 k3 k4 : PyVal) (c1 c2 c3 c4 : Color),
     let st1 := snd (BorderProperty.__set__ name
                       (VList [VTuple [k1; VColor c1]; VTuple [k2; VColor c2];
                               VTuple [k3; VColor c3]; VTuple [k4; VColor c4]]) st) in
     BorderProperty.__get__ name st1
     = (Ok (Edges.mk (k1, VColor c1) (k2, VColor c2) (k3, VColor c3) (k4, VColor c4)),
        st1)).
Proof.
  split; intros; subst st1; apply Border_get_of_edges;
    unfold BorderProperty.__set__, BorderProperty.setattr, BoxProperty.__set__;
    cbn; run; cbn;
    exact (edges_of_inserts name (rules st) (heap st) [] _ _ _ _).
Qed.

Lemma py_bool_pure (v : PyVal) (st : State) :
  exists r, py_bool v st = (r, st).
Proof.
  pose proof (py_bool_state v st) as E.
  destruct (py_bool v st) as [r st']. cbn in E. subst st'. eauto.
Qed.

(** Whenever [spacing()] of the edges of a border returns, each side is 0
    or 1, the edges are true exactly when some side is 1, and
    [__rich_repr__] yields as many edges as there are sides at 1. *)
Theorem Edges_truth_is_spacing (e : Edges.t) (st : State) (t r b l : Z) :
  fst (Edges.spacing e st) = Ok (t, r, b, l) ->
  (t = 0 \/ t = 1)%Z /\ (r = 0 \/ r = 1)%Z /\ (b = 0 \/ b = 1)%Z /\ (l = 0 \/ l = 1)%Z /\
  Edges.__bool__ e st = (Ok (0 <? t + r + b + l)%Z, st) /\
  exists items,
    Edges.__rich_repr__ e st = (Ok items, st) /\
    Z.of_nat (length items) = (t + r + b + l)%Z.
Proof.
  destruct e as [[k1 c1] [k2 c2] [k3 c3] [k4 c4]].
  destruct (py_bool_pure k1 st) as [r1 E1].
  destruct (py_bool_pure k2 st) as [r2 E2].
  destruct (py_bool_pure k3 st) as [r3 E3].
  destruct (py_bool_pure k4 st) as [r4 E4].
  unfold Edges.spacing, Edges.__bool__, Edges.__rich_repr__, py_or, bind, ret.
  cbn [Edges.top Edges.right Edges.bottom Edges.left fst snd].
  rewrite E1. destruct r1 as [b1|]; [|discriminate].
  rewrite E2. destruct r2 as [b2|]; [|discriminate].
  rewrite E3. destruct r3 as [b3|]; [|discriminate].
  rewrite E4. destruct r4 as [b4|]; [|discriminate].
  cbn [fst]. intros Hs. injection Hs as <- <- <- <-.
  destruct b1, b2, b3, b4; rewrite ?E1, ?E2, ?E3, ?E4; cbn;
    repeat split; auto; eexists; split; reflexivity.
Qed.

Lemma Edges_truth_is_spacing_witness :
  let e := Edges.mk (VStr "solid", VNone) (VStr "", VNone)
                    (VStr "", VNone) (VStr "dashed", VNone) in
  fst (Edges.spacing e empty_state) = Ok (1, 0, 0, 1)%Z /\
  Edges.__bool__ e empty_state = (Ok true, empty_state).
Proof.
  cbn zeta. split; [reflexivity|].
  destruct (Edges_truth_is_spacing
              (Edges.mk (VStr "solid", VNone) (VStr "", VNone)
                        (VStr "", VNone) (VStr "dashed", VNone))
              empty_state 1 0 0 1 eq_refl) as (_ & _ & _ & _ & E & _).
  exact E.
Defined.

Lemma edges_of_deletes (name : string) (m : gmap string PyVal) (h : gmap loc Dict)
    (cs : list Call) :
  edges_after name
    (mkState (delete (String.append name "_left")
               (delete (String.append name "_bottom")
                 (delete (String.append name "_right")
                   (delete (String.append name "_top") m)))) h cs)
  = [None; None; None; None].
Proof.
  pose proof (edge_names_distinct name) as D. cbn in D.
  destruct D as (D1 & D2 & D3 & D4 & D5 & D6).
  unfold edges_after. cbn.
  repeat f_equal; simplify_map_eq; reflexivity.
Qed.

Lemma Border_get_of_absent (name : string) (st : State) :
  edges_after name st = [None; None; None; None] ->
  BorderProperty.__get__ name st
  = (Ok (Edges.mk (VStr "", VColor Color_default) (VStr "", VColor Color_default)
                  (VStr "", VColor Color_default) (VStr "", VColor Color_default)),
     st).
Proof.
  unfold edges_after, BorderProperty.__get__, BorderProperty.getattr. cbn.
  intros E. injection E as E1 E2 E3 E4.
  unfold bind.
  rewrite (Box_get_absent _ _ E1), (Box_get_absent _ _ E2),
          (Box_get_absent _ _ E3), (Box_get_absent _ _ E4).
  reflexivity.
Qed.

(** After a border write of [None] the four edge rules are absent and the
    border reads as four default edges, which are false and take no
    space. *)
Theorem Border_clear_then_read `{External} (name : string) (st : State) :
  let st1 := snd (BorderProperty.__set__ name VNone st) in
  let default := (VStr "", VColor Color_default) in
  edges_after name st1 = [None; None; None; None] /\
  BorderProperty.__get__ name st1
  = (Ok (Edges.mk default default default default), st1) /\
  Edges.__bool__ (Edges.mk default default default default) st1 = (Ok false, st1) /\
  Edges.spacing (Edges.mk default default default default) st1
  = (Ok (0, 0, 0, 0)%Z, st1).
Proof.
  cbn zeta.
  assert (E : edges_after name (snd (BorderProperty.__set__ name VNone st))
              = [None; None; None; None]).
  { unfold BorderProperty.__set__. cbn. run. cbn.
    exact (edges_of_deletes name (rules st) (heap st) []). }
  repeat apply conj; [exact E | | reflexivity | reflexivity].
  apply Border_get_of_absent, E.
Qed.

(** A border write is not atomic: when the color string of the third of
    four values does not parse, the write raises the parser's error with
    the top and right edges already stored and the bottom and left edges
    as they were. *)
Theorem Border_write_stops_at_bad_color `{External}
    (name : string) (k1 k2 k3 : PyVal) (c1 c2 : Color) (s : string) (b4 : PyVal)
    (st : State) :
  Color_parse s = None ->
  let out := BorderProperty.__set__ name
               (VList [VTuple [k1; VColor c1]; VTuple [k2; VColor c2];
                       VTuple [k3; VStr s]; b4]) st in
  let '(e_top, e_right, e_bottom, e_left) := BorderProperty._properties name in
  fst out = Raise ColorParseError /\
  rules (snd out) !! e_top = Some (VTuple [k1; VColor c1]) /\
  rules (snd out) !! e_right = Some (VTuple [k2; VColor c2]) /\
  rules (snd out) !! e_bottom = rules st !! e_bottom /\
  rules (snd out) !! e_left = rules st !! e_left.
Proof.
  intros Hp. cbn zeta.
  pose proof (edge_names_distinct name) as D. cbn in D.
  destruct D as (D1 & D2 & D3 & D4 & D5 & D6).
  unfold BorderProperty.__set__, BorderProperty.setattr, BoxProperty.__set__.
  cbn. run. cbn. rewrite Hp. cbn.
  repeat split; simplify_map_eq; reflexivity.
Qed.

Lemma Border_write_stops_at_bad_color_witness :
  let red := VColor (mkColor "red" 1 (Some 1%Z) None) in
  let out := BorderProperty.__set__ (H := Reference.external) "border"
               (VList [VTuple [VStr "solid"; red]; VTuple [VStr "solid"; red];
                       VTuple [VStr "solid"; VStr "flarp"]; VNone]) empty_state in
  fst out = Raise ColorParseError /\
  rules (snd out) !! "border_top" = Some (VTuple [VStr "solid"; red]) /\
  rules (snd out) !! "border_bottom" = None.
Proof.
  cbn zeta.
  pose proof (Border_write_stops_at_bad_color (H := Reference.external) "border"
                (VStr "solid") (VStr "solid") (VStr "solid")
                (mkColor "red" 1 (Some 1%Z) None) (mkColor "red" 1 (Some 1%Z) None)
                "flarp" VNone empty_state eq_refl) as (E & Ht & _ & Hb & _).
  repeat apply conj; [exact E | exact Ht | exact Hb].
Defined.

(** The shorthand is for sequences that are not tuples: a border written
    as a tuple is handed whole to each edge, so a tuple whose length is not
    two (one pair, four pairs) raises [ValueError] at the first edge,
    after the repaint request and before any rule is touched. *)
Theorem Border_tuple_is_one_edge `{External} (name : string) (items : list PyVal)
    (st : State) :
  length items <> 2 ->
  BorderProperty.__set__ name (VTuple items) st
  = (Raise PyValueError,
     mkState (rules st) (heap st) (calls st ++ [Refresh false])).
Proof.
  intros Hlen.
  unfold BorderProperty.__set__, BorderProperty.setattr, BoxProperty.__set__,
    unpack2, py_iter.
  cbn. run.
  destruct items as [|a [|b [|c items]]]; cbn in *; congruence.
Qed.

Lemma Border_tuple_is_one_edge_witness :
  let red := VColor (mkColor "red" 1 (Some 1%Z) None) in
  let pair := VTuple [VStr "solid"; red] in
  BorderProperty.__set__ (H := Reference.external) "border"
    (VTuple [pair; pair; pair; pair]) empty_state
  = (Raise PyValueError, mkState ∅ ∅ [Refresh false]).
Proof.
  cbn zeta.
  apply (Border_tuple_is_one_edge (H := Reference.external) "border"
           [VTuple [VStr "solid"; VColor (mkColor "red" 1 (Some 1%Z) None)];
            VTuple [VStr "solid"; VColor (mkColor "red" 1 (Some 1%Z) None)];
            VTuple [VStr "solid"; VColor (mkColor "red" 1 (Some 1%Z) None)];
            VTuple [VStr "solid"; VColor (mkColor "red" 1 (Some 1%Z) None)]]
           empty_state).
  cbn. lia.
Defined.

(** ** Writes that raise commit nothing *)

Lemma keeps_ret {A} (a : A) : keeps_rules (ret a).
Proof. intros st. reflexivity. Qed.

Lemma keeps_raise {A} e : keeps_rules (@raise A e).
Proof. intros st. reflexivity. Qed.

Lemma keeps_lift {A} (r : Result A) : keeps_rules (lift r).
Proof. intros st. reflexivity. Qed.

Lemma keeps_refresh layout : keeps_rules (refresh layout).
Proof. intros st. reflexivity. Qed.

Lemma keeps_alloc d : keeps_rules (alloc d).
Proof. intros st. reflexivity. Qed.

Lemma keeps_deref l : keeps_rules (deref l).
Proof. intros st. unfold deref. destruct (heap st !! l); reflexivity. Qed.

Lemma keeps_bind {A B} (m : M A) (k : A -> M B) :
  keeps_rules m -> (forall a, keeps_rules (k a)) -> keeps_rules (bind m k).
Proof.
  intros Hm Hk st. unfold bind. specialize (Hm st).
  destruct (m st) as [[a|e] st1]; cbn in Hm; [|exact Hm].
  rewrite Hk. exact Hm.
Qed.

Lemma commits_keeps {A} (m : M A) : keeps_rules m -> commits_last m.
Proof. intros Hm st e _. apply Hm. Qed.

Lemma commits_bind {A B} (m : M A) (k : A -> M B) :
  keeps_rules m -> (forall a, commits_last (k a)) -> commits_last (bind m k).
Proof.
  intros Hm Hk st e. unfold bind. specialize (Hm st).
  destruct (m st) as [[a|e'] st1]; cbn in Hm.
  - intros Hr. rewrite (Hk a st1 e Hr). exact Hm.
  - intros _. exact Hm.
Qed.

Lemma commits_set_rule name v : commits_last (set_rule name v).
Proof. intros st e. discriminate. Qed.

Lemma commits_clear_rule name : commits_last (clear_rule name).
Proof. intros st e. discriminate. Qed.

(** Shows that a computation built from reads leaves the rules alone. *)
Ltac keep :=
  repeat first
    [ apply keeps_ret | apply keeps_raise | apply keeps_lift | apply keeps_refresh
    | apply keeps_alloc | apply keeps_deref
    | (apply keeps_bind; [|intros])
    | match goal with
      | |- keeps_rules (match ?x with _ => _ end) => destruct x
      end ].

Lemma keeps_py_iter v : keeps_rules (py_iter v).
Proof. unfold py_iter. keep. Qed.

Lemma keeps_unpack2 v : keeps_rules (unpack2 v).
Proof. unfold unpack2. apply keeps_bind; [apply keeps_py_iter | intros; keep]. Qed.

Lemma keeps_py_copy v : keeps_rules (py_copy v).
Proof. unfold py_copy. keep. Qed.

Lemma keeps_Spacing_unpack v : keeps_rules (Spacing_unpack v).
Proof.
  unfold Spacing_unpack. apply keeps_bind; [apply keeps_py_iter | intros; keep].
Qed.

Lemma keeps_check_words ws : keeps_rules (StyleFlagsProperty.check_words ws).
Proof.
  induction ws as [|w ws IH]; cbn; [apply keeps_ret|].
  destruct (StyleFlagsProperty.valid_word w); cbn; [exact IH | apply keeps_raise].
Qed.

Lemma keeps_Offset_component `{External} c axis :
  keeps_rules (OffsetProperty.component c axis).
Proof. unfold OffsetProperty.component. keep. Qed.

Lemma keeps_not_in_valid_values self v :
  keeps_rules (StringEnumProperty.not_in_valid_values self v).
Proof. unfold StringEnumProperty.not_in_valid_values. keep. Qed.

(** As [keep], with the reads of this layer. *)
Ltac keep_reads :=
  repeat first
    [ apply keeps_ret | apply keeps_raise | apply keeps_lift | apply keeps_refresh
    | apply keeps_alloc | apply keeps_deref
    | apply keeps_py_iter | apply keeps_unpack2 | apply keeps_py_copy
    | apply keeps_Spacing_unpack | apply keeps_check_words
    | apply keeps_Offset_component | apply keeps_not_in_valid_values
    | (apply keeps_bind; [|intros])
    | match goal with
      | |- keeps_rules (match ?x with _ => _ end) => destruct x
      end ].

(** Splits a setter into the reads it starts with and the store it ends
    with. *)
Ltac commit :=
  repeat first
    [ apply commits_set_rule | apply commits_clear_rule
    | (apply commits_bind; [ solve [keep_reads] | intros ])
    | (apply commits_keeps; solve [keep_reads])
    | match goal with
      | |- commits_last (let '(_, _) := ?p in _) => destruct p
      | |- commits_last (match ?x with _ => _ end) => destruct x
      end ].

(** A write to a property that is one rule commits last: when the setter
    of a string-enum, name, name-list, color, style-flags, fractional,
    offset, spacing, docks, dock, layout or transitions property raises,
    every rule is as it was before the write (for a scalar property the
    whole state is). *)
Theorem Single_rule_writes_commit_last `{External} :
  (forall self v, commits_last (StringEnumProperty.__set__ self v)) /\
  (forall name v, commits_last (NameProperty.__set__ name v)) /\
  (forall name v, commits_last (NameListProperty.__set__ name v)) /\
  (forall name v, commits_last (ColorProperty.__set__ name v)) /\
  (forall name v, commits_last (StyleFlagsProperty.__set__ name v)) /\
  (forall self v, commits_last (FractionalProperty.__set__ self v)) /\
  (forall name v, commits_last (OffsetProperty.__set__ name v)) /\
  (forall name v, commits_last (SpacingProperty.__set__ name v)) /\
  (forall v, commits_last (DocksProperty.__set__ v)) /\
  (forall v, commits_last (DockProperty.__set__ v)) /\
  (forall v, commits_last (LayoutProperty.__set__ v)) /\
  (forall v, commits_last (TransitionsProperty.__set__ v)) /\
  (forall self v, commits_last (ScalarProperty.__set__ self v)).
Proof.
  repeat apply conj; intros.
  - unfold StringEnumProperty.__set__. commit.
  - unfold NameProperty.__set__. commit.
  - unfold NameListProperty.__set__. commit.
  - unfold ColorProperty.__set__. commit.
  - unfold StyleFlagsProperty.__set__. commit.
  - unfold FractionalProperty.__set__. commit.
  - unfold OffsetProperty.__set__. commit.
  - unfold SpacingProperty.__set__. commit.
  - unfold DocksProperty.__set__. commit.
  - unfold DockProperty.__set__. commit.
  - unfold LayoutProperty.__set__. commit.
  - unfold TransitionsProperty.__set__. commit.
  - intros st e.
    destruct (Scalar_write_outcome self v st) as [[_ E]|[(e' & E)|(s & _ & E)]];
      rewrite E; cbn; try discriminate; reflexivity.
Qed.

Lemma Single_rule_writes_commit_last_witness :
  let st := mkState {[ "offset" := VScalarOffset (Scalar.mk 1 CELLS WIDTH)
                                                 (Scalar.mk 2 CELLS HEIGHT) ]} ∅ [] in
  let out := OffsetProperty.__set__ (H := Reference.external) "offset"
               (VTuple [VInt 3; VStr "wide"]) st in
  fst out = Raise ScalarParseError /\ rules (snd out) = rules st.
Proof.
  cbn zeta.
  destruct (Single_rule_writes_commit_last (H := Reference.external))
    as (_ & _ & _ & _ & _ & _ & Hoffset & _).
  split; [reflexivity|].
  apply (Hoffset "offset" (VTuple [VInt 3; VStr "wide"]) _ ScalarParseError).
  reflexivity.
Defined.

(** ** Name list, name and layout *)

(** A name-list write never raises, and a value the setter has no branch
    for (a list, a number) is dropped: the layout is asked for and no rule
    changes. *)
Theorem NameList_write_never_raises (name : string) (v : PyVal) (st : State) :
  fst (NameListProperty.__set__ name v st) = Ok tt /\
  (namelist_accepts v = false ->
   NameListProperty.__set__ name v st
   = (Ok tt, mkState (rules st) (heap st) (calls st ++ [Refresh true]))).
Proof.
  unfold NameListProperty.__set__, namelist_accepts. run.
  destruct v; cbn; split; try reflexivity; try discriminate;
    destruct (is_tuple _); try reflexivity; discriminate.
Qed.

Lemma NameList_write_never_raises_witness :
  namelist_accepts (VList [VStr "a"; VStr "b"]) = false /\
  NameListProperty.__set__ "classes" (VList [VStr "a"; VStr "b"]) empty_state
  = (Ok tt, mkState ∅ ∅ [Refresh true]).
Proof.
  split; [reflexivity|].
  destruct (NameList_write_never_raises "classes" (VList [VStr "a"; VStr "b"])
              empty_state) as [_ Hdrop].
  exact (Hdrop eq_refl).
Defined.

Lemma In_tail {A} (x : A) (l : list A) : In x (tl l) -> In x l.
Proof. destruct l; cbn; auto. Qed.

Lemma split_keeps_empty_piece (sep : ascii) (a b : string) :
  In EmptyString (tl (PyStr.split sep (String.append a (String sep (String sep b))))).
Proof.
  induction a as [|c a IH].
  - change (In EmptyString (tl (PyStr.split sep (String sep (String sep b))))).
    cbn [PyStr.split]. rewrite !Ascii.eqb_refl. left. reflexivity.
  - change (In EmptyString
              (tl (PyStr.split sep
                     (String c (String.append a (String sep (String sep b))))))).
    cbn [PyStr.split]. destruct (Ascii.eqb c sep).
    + apply In_tail. exact IH.
    + destruct (PyStr.split sep (String.append a (String sep (String sep b))));
        [contradiction | exact IH].
Qed.

(** Two spaces in a row make an empty token: a name-list write of such a
    string stores an empty name among the names, and a style-flags write
    of such a string is refused as holding an unknown word. *)
Theorem Doubled_space_gives_empty_token `{External}
    (name a b : string) (st : State) :
  let s := String.append a (String " " (String " " b)) in
  (exists names,
     rules (snd (NameListProperty.__set__ name (VStr s) st)) !! name
     = Some (VTuple names) /\ In (VStr "") names) /\
  (exists w,
     StyleFlagsProperty.__set__ name (VStr s) st
     = (Raise (StyleValueError (UnknownWord w)),
        mkState (rules st) (heap st) (calls st ++ [Refresh false]))).
Proof.
  cbn zeta. pose proof (split_keeps_empty_piece " " a b) as Hin.
  apply In_tail in Hin. split.
  - eexists. split.
    + unfold NameListProperty.__set__. run. cbn. apply lookup_insert_eq.
    + apply in_map_iff. exists EmptyString. split; [reflexivity | exact Hin].
  - assert (Hbad : forallb StyleFlagsProperty.valid_word
                     (StyleFlagsProperty.words
                        (String.append a (String " " (String " " b)))) = false).
    { apply not_true_is_false. intros Hall.
      rewrite forallb_forall in Hall.
      specialize (Hall EmptyString). cbn in Hall.
      assert (Hc : false = true); [|discriminate Hc].
      apply Hall. unfold StyleFlagsProperty.words.
      apply in_map_iff. exists EmptyString. split; [reflexivity | exact Hin]. }
    destruct (check_words_invalid _ Hbad) as (w & _ & _ & Hrun).
    exists w. unfold StyleFlagsProperty.__set__. run. rewrite Hrun. reflexivity.
Qed.

(** The layout setter stores under the rule "layout" whatever the
    descriptor is called, while the getter reads the rule of the
    descriptor's name: a layout object written reads back through a
    descriptor named "layout", and a descriptor of any other name reads
    what it read before the write. *)
Theorem Layout_write_goes_to_layout `{External} (o : Opaque) (st : State) :
  let st1 := snd (LayoutProperty.__set__ (VLayout o) st) in
  LayoutProperty.__get__ "layout" st1 = (Ok (VLayout o), st1) /\
  (forall name, name <> "layout" ->
     fst (LayoutProperty.__get__ name st1) = fst (LayoutProperty.__get__ name st)).
Proof.
  cbn zeta. unfold LayoutProperty.__set__, LayoutProperty.__get__. run.
  rewrite lookup_insert_eq. split; [reflexivity|].
  intros name Hne. rewrite lookup_insert_ne by congruence. reflexivity.
Qed.

Lemma Layout_write_goes_to_layout_witness :
  let st := mkState {[ "layout_x" := VLayout 1%N ]} ∅ [] in
  let st1 := snd (LayoutProperty.__set__ (H := Reference.external) (VLayout 2%N) st) in
  fst (LayoutProperty.__get__ "layout_x" st1) = Ok (VLayout 1%N).
Proof.
  cbn zeta.
  destruct (Layout_write_goes_to_layout (H := Reference.external) 2%N
              (mkState {[ "layout_x" := VLayout 1%N ]} ∅ [])) as [_ Hother].
  rewrite (Hother "layout_x"); [reflexivity | discriminate].
Defined.

(** A layout written by name stores what the registry gives for the name;
    a name the registry refuses raises the registry's error and leaves the
    rule as it was. *)
Theorem Layout_write_by_name `{External} (v : PyVal) (st : State) :
  v <> VNone -> (forall o, v <> VLayout o) ->
  (forall o, get_layout v = Ok o ->
     LayoutProperty.__set__ v st
     = (Ok tt, mkState (<["layout" := VLayout o]> (rules st)) (heap st)
                 (calls st ++ [Refresh true; SetRule "layout" (VLayout o)]))) /\
  (forall e, get_layout v = Raise e ->
     LayoutProperty.__set__ v st
     = (Raise e, mkState (rules st) (heap st) (calls st ++ [Refresh true]))).
Proof.
  intros Hn Hl. unfold LayoutProperty.__set__. run.
  split; intros r Hr; destruct v; try congruence;
    try (exfalso; eapply Hl; reflexivity);
    rewrite Hr; cbn; rewrite <- ?app_assoc; reflexivity.
Qed.

Lemma Layout_write_by_name_witness :
  LayoutProperty.__set__ (H := Reference.external) (VStr "vertical") empty_state
  = (Ok tt, mkState (<["layout" := VLayout 2%N]> ∅) ∅
              [Refresh true; SetRule "layout" (VLayout 2%N)]) /\
  LayoutProperty.__set__ (H := Reference.external) (VStr "spiral") empty_state
  = (Raise MissingLayout, mkState ∅ ∅ [Refresh true]).
Proof.
  split.
  - destruct (Layout_write_by_name (H := Reference.external) (VStr "vertical")
                empty_state) as [Hok _]; [discriminate | discriminate |].
    exact (Hok 2%N eq_refl).
  - destruct (Layout_write_by_name (H := Reference.external) (VStr "spiral")
                empty_state) as [_ Hbad]; [discriminate | discriminate |].
    exact (Hbad MissingLayout eq_refl).
Defined.

(** ** Scalars *)

Lemma every_unit_has_a_symbol (u : Unit) : u ∈ UNIT_SYMBOL_keys.
Proof. unfold UNIT_SYMBOL_keys. destruct u; set_solver. Qed.

(** What the scalar setter stores for a value that passes the unit test. *)
Lemma Scalar_set_accepted `{External} (self : ScalarProperty.t) (v : PyVal)
    (s : Scalar.t) (st : State) :
  ScalarProperty.new_value_of v = Ok s ->
  Scalar.unit s ∈ ScalarProperty.units self ->
  let stored :=
    if Scalar.is_percent s
    then Scalar.mk (Scalar.value s) (ScalarProperty.percent_unit self) WIDTH
    else s in
  ScalarProperty.__set__ self v st
  = (Ok tt, mkState (<[ScalarProperty.name self := VScalar stored]> (rules st))
              (heap st)
              (calls st ++ [SetRule (ScalarProperty.name self) (VScalar stored);
                            Refresh false])).
Proof.
  intros Hs Hu. cbn zeta. unfold ScalarProperty.__set__.
  destruct v; try discriminate Hs; run; rewrite Hs;
    rewrite (bool_decide_eq_true_2 _ Hu); cbn; rewrite <- app_assoc; reflexivity.
Qed.

(** A float written to a scalar property that allows cells reads back as
    that many cells, and an int is refused: the setter takes a number only
    as a float. *)
Theorem Scalar_float_reads_back_as_cells `{External}
    (self : ScalarProperty.t) (st : State) :
  CELLS ∈ ScalarProperty.units self ->
  (forall q : float,
     let st1 := snd (ScalarProperty.__set__ self (VFloat q) st) in
     ScalarProperty.__get__ self st1 = (Ok (VScalar (Scalar.mk q CELLS WIDTH)), st1)) /\
  (forall z : Z,
     ScalarProperty.__set__ self (VInt z) st
     = (Raise (StyleValueError ExpectedFloatScalarOrNone), st)).
Proof.
  intros Hc. split.
  - intros q st1. subst st1.
    rewrite (Scalar_set_accepted self (VFloat q) (Scalar.mk q CELLS WIDTH) st eq_refl Hc).
    unfold ScalarProperty.__get__. run. cbn. rewrite lookup_insert_eq. reflexivity.
  - intros z. reflexivity.
Qed.

Lemma Scalar_float_reads_back_as_cells_witness :
  let width := ScalarProperty.__init__ "width" None WIDTH in
  let st1 := snd (ScalarProperty.__set__ (H := Reference.external) width
                    (VFloat 50) empty_state) in
  ScalarProperty.__get__ width st1 = (Ok (VScalar (Scalar.mk 50 CELLS WIDTH)), st1).
Proof.
  cbn zeta.
  destruct (Scalar_float_reads_back_as_cells (H := Reference.external)
              (ScalarProperty.__init__ "width" None WIDTH) empty_state
              (every_unit_has_a_symbol CELLS)) as [Hq _].
  exact (Hq 50%float).
Defined.

(** A percentage written to a scalar property, as a scalar or as a
    literal, is stored with the property's percent unit as its unit and
    [WIDTH] as its percent unit, whatever percent unit it came with. *)
Theorem Scalar_percent_takes_the_property_unit `{External}
    (self : ScalarProperty.t) (st : State) :
  PERCENT ∈ ScalarProperty.units self ->
  let stores (q : float) :=
    let stored := VScalar (Scalar.mk q (ScalarProperty.percent_unit self) WIDTH) in
    (Ok tt, mkState (<[ScalarProperty.name self := stored]> (rules st)) (heap st)
              (calls st ++ [SetRule (ScalarProperty.name self) stored; Refresh false])) in
  (forall (q : float) (pu : Unit),
     ScalarProperty.__set__ self (VScalar (Scalar.mk q PERCENT pu)) st = stores q) /\
  (forall (token : string) (q : float),
     scalar_literal token = Some (q, PERCENT) ->
     ScalarProperty.__set__ self (VStr token) st = stores q).
Proof.
  intros Hp. cbn zeta. split.
  - intros q pu.
    exact (Scalar_set_accepted self (VScalar (Scalar.mk q PERCENT pu))
             (Scalar.mk q PERCENT pu) st eq_refl Hp).
  - intros token q Hq.
    refine (Scalar_set_accepted self (VStr token) (Scalar.mk q PERCENT WIDTH) st _ Hp).
    cbn. unfold Scalar_parse. rewrite Hq. reflexivity.
Qed.

Lemma Scalar_percent_takes_the_property_unit_witness :
  let height := ScalarProperty.__init__ "height" None HEIGHT in
  rules (snd (ScalarProperty.__set__ (H := Reference.external) height
                (VStr "50%") empty_state)) !! "height"
  = Some (VScalar (Scalar.mk 50 HEIGHT WIDTH)).
Proof.
  cbn zeta.
  destruct (Scalar_percent_takes_the_property_unit (H := Reference.external)
              (ScalarProperty.__init__ "height" None HEIGHT) empty_state
              (every_unit_has_a_symbol PERCENT)) as [_ Hs].
  rewrite (Hs "50%" 50%float eq_refl). reflexivity.
Defined.

(** After a scalar write of a value that completes, the rule holds a
    scalar whose unit is one the property allows and is no percentage, or
    is the property's percent unit. *)
Theorem Scalar_stored_unit `{External} (self : ScalarProperty.t) (v : PyVal)
    (st : State) :
  v <> VNone ->
  fst (ScalarProperty.__set__ self v st) = Ok tt ->
  exists s,
    rules (snd (ScalarProperty.__set__ self v st)) !! ScalarProperty.name self
    = Some (VScalar s) /\
    ((Scalar.unit s ∈ ScalarProperty.units self /\ Scalar.unit s <> PERCENT) \/
     (Scalar.unit s = ScalarProperty.percent_unit self /\
      Scalar.percent_unit s = WIDTH)).
Proof.
  intros Hv Hok.
  destruct (ScalarProperty.new_value_of v) as [s|e] eqn:Hs.
  - destruct (decide (Scalar.unit s ∈ ScalarProperty.units self)) as [Hu|Hu].
    + rewrite (Scalar_set_accepted self v s st Hs Hu). cbn.
      rewrite lookup_insert_eq. eexists. split; [reflexivity|].
      unfold Scalar.is_percent. destruct (decide (Scalar.unit s = PERCENT)) as [E|E].
      * rewrite (bool_decide_eq_true_2 _ E). right. split; reflexivity.
      * rewrite (bool_decide_eq_false_2 _ E). left. split; assumption.
    + exfalso. revert Hok. unfold ScalarProperty.__set__.
      destruct v; try contradiction; run; rewrite Hs;
        rewrite (bool_decide_eq_false_2 _ Hu); discriminate.
  - exfalso. revert Hok. unfold ScalarProperty.__set__.
    destruct v; try contradiction; run; rewrite Hs; discriminate.
Qed.

Lemma Scalar_stored_unit_witness :
  let width := ScalarProperty.__init__ "width" (Some [CELLS; PERCENT]) HEIGHT in
  exists s,
    rules (snd (ScalarProperty.__set__ (H := Reference.external) width
                  (VStr "5%") empty_state)) !! "width" = Some (VScalar s) /\
    ((Scalar.unit s ∈ [CELLS; PERCENT] /\ Scalar.unit s <> PERCENT) \/
     (Scalar.unit s = HEIGHT /\ Scalar.percent_unit s = WIDTH)).
Proof.
  cbn zeta.
  apply (Scalar_stored_unit (H := Reference.external)
           (ScalarProperty.__init__ "width" (Some [CELLS; PERCENT]) HEIGHT)
           (VStr "5%") empty_state); [discriminate | reflexivity].
Defined.

(** A scalar property made without units, or with an empty set of them,
    allows every unit: whatever value the setter can turn into a scalar is
    stored, and the units error is never raised. *)
Theorem Scalar_without_units_allows_all `{External}
    (name : string) (pu : Unit) (v : PyVal) (s : Scalar.t) (st : State) :
  ScalarProperty.new_value_of v = Ok s ->
  ScalarProperty.__init__ name (Some []) pu = ScalarProperty.__init__ name None pu /\
  fst (ScalarProperty.__set__ (ScalarProperty.__init__ name None pu) v st) = Ok tt.
Proof.
  intros Hs. split; [reflexivity|].
  rewrite (Scalar_set_accepted (ScalarProperty.__init__ name None pu) v s st Hs
             (every_unit_has_a_symbol _)).
  reflexivity.
Qed.

Lemma Scalar_without_units_allows_all_witness :
  fst (ScalarProperty.__set__ (H := Reference.external)
         (ScalarProperty.__init__ "width" None WIDTH) (VStr "5vh") empty_state)
  = Ok tt.
Proof.
  destruct (Scalar_without_units_allows_all (H := Reference.external)
              "width" WIDTH (VStr "5vh") (Scalar.mk 5 VIEW_HEIGHT WIDTH) empty_state
              eq_refl) as [_ E].
  exact E.
Defined.

(** ** Fractional, enumerated, color and docks *)



(** What [clamp] lets through, it lets through again. *)
Lemma clamp_idempotent (f g : float) (lo hi : Z) :
  clamp f lo hi = VFloat g -> clamp g lo hi = VFloat g.
Proof.
  unfold clamp.
  destruct (float_lt_int f lo) eqn:E1; [discriminate|].
  destruct (int_lt_float hi f) eqn:E2; [discriminate|].
  intros [= <-]. rewrite E1, E2. reflexivity.
Qed.



Example Fractional_write_back_of_bound_raises :
  let opacity := FractionalProperty.mk "opacity" 1 in
  let st1 := snd (FractionalProperty.__set__ (H := Reference.external) opacity
                    (VFloat 1.5) empty_state) in
  FractionalProperty.__get__ opacity st1 = (Ok (VInt 1), st1) /\
  fst (FractionalProperty.__set__ (H := Reference.external) opacity (VInt 1) st1)
  = Raise (StyleTypeError "opacity").
Proof. cbn zeta. split; reflexivity. Qed.

(** An enumerated property takes a member of its set and reads it back,
    refuses any other string with the enumeration error and every rule
    unchanged, and reads as its default when the rule is absent. *)
Theorem StringEnum_accepts_members_only (self : StringEnumProperty.t) (st : State) :
  let name := StringEnumProperty.name self in
  (forall s : string,
     s ∈ StringEnumProperty._valid_values self ->
     let st1 := snd (StringEnumProperty.__set__ self (VStr s) st) in
     fst (StringEnumProperty.__set__ self (VStr s) st) = Ok tt /\
     StringEnumProperty.__get__ self st1 = (Ok (VStr s), st1)) /\
  (forall s : string,
     s ∉ StringEnumProperty._valid_values self ->
     StringEnumProperty.__set__ self (VStr s) st
     = (Raise (StyleValueError
                 (MustBeOneOf name (StringEnumProperty._valid_values self))),
        mkState (rules st) (heap st) (calls st ++ [Refresh false]))) /\
  (rules st !! name = None ->
   StringEnumProperty.__get__ self st
   = (Ok (VStr (StringEnumProperty._default self)), st)).
Proof.
  cbn zeta. repeat apply conj.
  - intros s Hin.
    unfold StringEnumProperty.__set__, StringEnumProperty.not_in_valid_values,
      StringEnumProperty.__get__.
    run. cbn. rewrite (bool_decide_eq_true_2 _ Hin). cbn.
    rewrite lookup_insert_eq. split; reflexivity.
  - intros s Hout.
    unfold StringEnumProperty.__set__, StringEnumProperty.not_in_valid_values.
    run. cbn. rewrite (bool_decide_eq_false_2 _ Hout). reflexivity.
  - intros E. unfold StringEnumProperty.__get__. run. rewrite E. reflexivity.
Qed.

Lemma StringEnum_accepts_members_only_witness :
  let display := StringEnumProperty.mk "display" ["block"; "none"] "block" in
  fst (StringEnumProperty.__set__ display (VStr "none") empty_state) = Ok tt /\
  fst (StringEnumProperty.__set__ display (VStr "inline") empty_state)
  = Raise (StyleValueError (MustBeOneOf "display" ["block"; "none"])) /\
  StringEnumProperty.__get__ display empty_state = (Ok (VStr "block"), empty_state).
Proof.
  cbn zeta.
  destruct (StringEnum_accepts_members_only
              (StringEnumProperty.mk "display" ["block"; "none"] "block") empty_state)
    as (Hin & Hout & Hdef).
  repeat apply conj.
  - apply (Hin "none"). cbn. apply list_elem_of_In. cbn. auto.
  - rewrite (Hout "inline"); [reflexivity|].
    cbn. intros Hm. apply list_elem_of_In in Hm. cbn in Hm.
    destruct Hm as [E|[E|[]]]; discriminate E.
  - apply Hdef. reflexivity.
Defined.

(** A color property reads back the color written, as given or as the
    parser reads it from a string, and reads as the default color after a
    write of [None]. *)
Theorem Color_write_then_read `{External} (name : string) (st : State) :
  (forall c : Color,
     let st1 := snd (ColorProperty.__set__ name (VColor c) st) in
     ColorProperty.__get__ name st1 = (Ok (VColor c), st1)) /\
  (forall (s : string) (c : Color),
     Color_parse s = Some c ->
     let st1 := snd (ColorProperty.__set__ name (VStr s) st) in
     ColorProperty.__get__ name st1 = (Ok (VColor c), st1)) /\
  (forall s : string,
     Color_parse s = None ->
     ColorProperty.__set__ name (VStr s) st
     = (Raise ColorParseError,
        mkState (rules st) (heap st) (calls st ++ [Refresh false]))) /\
  (let st1 := snd (ColorProperty.__set__ name VNone st) in
   ColorProperty.__get__ name st1 = (Ok (VColor Color_default), st1)).
Proof.
  repeat apply conj.
  - intros c st1. subst st1.
    unfold ColorProperty.__set__, ColorProperty.__get__, py_or, py_bool. run.
    cbn. rewrite lookup_insert_eq. reflexivity.
  - intros s c Hp st1. subst st1.
    unfold ColorProperty.__set__, ColorProperty.__get__, py_or, py_bool. run.
    rewrite Hp. cbn. rewrite lookup_insert_eq. reflexivity.
  - intros s Hp. unfold ColorProperty.__set__. run. rewrite Hp. reflexivity.
  - cbn zeta.
    unfold ColorProperty.__set__, ColorProperty.__get__, py_or, py_bool. run.
    cbn. rewrite lookup_delete_eq. reflexivity.
Qed.

Lemma Color_write_then_read_witness :
  let st1 := snd (ColorProperty.__set__ (H := Reference.external) "background"
                    (VStr "blue") empty_state) in
  ColorProperty.__get__ "background" st1
  = (Ok (VColor (mkColor "blue" 1 (Some 4%Z) None)), st1) /\
  fst (ColorProperty.__set__ (H := Reference.external) "background"
         (VStr "flarp") empty_state) = Raise ColorParseError.
Proof.
  cbn zeta.
  destruct (Color_write_then_read (H := Reference.external) "background" empty_state)
    as (_ & Hs & Hbad & _).
  split.
  - exact (Hs "blue" (mkColor "blue" 1 (Some 4%Z) None) eq_refl).
  - rewrite (Hbad "flarp" eq_refl). reflexivity.
Defined.

(** The docks written as a list are stored as a tuple of the same groups
    in the same order, and read back so; written as [None] they read as
    the empty tuple. *)
Theorem Docks_write_then_read (groups : list PyVal) (st : State) :
  (let st1 := snd (DocksProperty.__set__ (VList groups) st) in
   DocksProperty.__get__ st1 = (Ok (VTuple groups), st1)) /\
  (let st1 := snd (DocksProperty.__set__ VNone st) in
   DocksProperty.__get__ st1 = (Ok (VTuple []), st1)).
Proof.
  split; cbn zeta; unfold DocksProperty.__set__, DocksProperty.__get__, py_iter;
    run; cbn; [rewrite lookup_insert_eq | rewrite lookup_delete_eq]; reflexivity.
Qed.

(** ** Reading transitions, writing a text style *)

(** Reading the transitions hands out the stored dictionary itself, so a
    change made through what was read is a change of the stored
    transitions; with no transitions set, each read makes a new empty
    dictionary, stores nothing, and two reads give two dictionaries. *)
Theorem Transitions_read_shares_the_dict (st : State) :
  (forall (l0 : loc) (d : Dict),
     rules st !! "transitions" = Some (VDict l0) ->
     heap st !! l0 = Some d ->
     let out := TransitionsProperty.__get__ st in
     fst out = Ok (VDict l0) /\
     forall f : Dict -> Dict,
       stored_transitions (snd (mutate l0 f (snd out))) = Some (f d)) /\
  (rules st !! "transitions" = None ->
   let out := TransitionsProperty.__get__ st in
   exists l l',
     fst out = Ok (VDict l) /\
     heap st !! l = None /\ heap (snd out) !! l = Some [] /\
     rules (snd out) = rules st /\
     fst (TransitionsProperty.__get__ (snd out)) = Ok (VDict l') /\ l' <> l).
Proof.
  split.
  - intros l0 d Hr Hh. cbn zeta.
    assert (Hne : fresh (dom (heap st)) <> l0).
    { intros E. apply (is_fresh (dom (heap st))). rewrite E.
      apply elem_of_dom. eexists. exact Hh. }
    unfold TransitionsProperty.__get__, stored_transitions. run.
    rewrite Hr. split; [reflexivity|]. intros f.
    rewrite lookup_alter_eq, (lookup_insert_ne _ _ _ _ Hne), Hh. reflexivity.
  - intros Hr. cbn zeta.
    exists (fresh (dom (heap st))),
           (fresh (dom (<[fresh (dom (heap st)) := []]> (heap st)))).
    unfold TransitionsProperty.__get__. run. rewrite Hr.
    repeat apply conj; try reflexivity.
    + apply not_elem_of_dom. apply is_fresh.
    + apply lookup_insert_eq.
    + intros E.
      apply (is_fresh (dom (<[fresh (dom (heap st)) := []]> (heap st)))).
      rewrite E. apply elem_of_dom. rewrite lookup_insert_eq. eexists. reflexivity.
Qed.

Lemma Transitions_read_shares_the_dict_witness :
  let d := [("offset", VObject 7%N)] in
  let st := mkState {[ "transitions" := VDict 0 ]} {[ 0 := d ]} [] in
  let out := TransitionsProperty.__get__ st in
  fst out = Ok (VDict 0) /\
  stored_transitions (snd (mutate 0 (dict_pop "offset") (snd out))) = Some [].
Proof.
  cbn zeta.
  assert (Hr : rules (mkState {[ "transitions" := VDict 0 ]}
                              {[ 0 := [("offset", VObject 7%N)] ]} [])
               !! "transitions" = Some (VDict 0)) by reflexivity.
  assert (Hh : heap (mkState {[ "transitions" := VDict 0 ]}
                             {[ 0 := [("offset", VObject 7%N)] ]} [])
               !! 0 = Some [("offset", VObject 7%N)]) by reflexivity.
  destruct (Transitions_read_shares_the_dict
              (mkState {[ "transitions" := VDict 0 ]}
                       {[ 0 := [("offset", VObject 7%N)] ]} [])) as [Hset _].
  destruct (Hset 0 [("offset", VObject 7%N)] Hr Hh) as [E Hf].
  split; [exact E | exact (Hf (dict_pop "offset"))].
Defined.

(** A text style written as [None] clears its three rules, and a null
    style writes nothing. A style with a foreground color only stores the
    rule "text_color" and, its colorless copy being true, goes on to write
    "text_style" from the string that copy prints as: when the words of
    that string are in the style-flags vocabulary and the style parser
    reads it, the style parsed is stored too (for the "none" an empty
    style prints as, the null style). The write is not atomic: a style
    whose attributes print with a word outside the style-flags vocabulary
    raises the unknown-word error with its foreground color already
    stored. *)
Theorem Style_write_decomposes `{External} (st : State) :
  (let st1 := snd (StyleProperty.__set__ VNone st) in
   rules st1 !! "text_color" = None /\
   rules st1 !! "text_background" = None /\
   rules st1 !! "text_style" = None) /\
  StyleProperty.__set__ (VStyle Style_null) st
  = (Ok tt, mkState (rules st) (heap st) (calls st ++ [Refresh false])) /\
  (forall (c : Color) (text : string) (parsed : Style),
     Style_str (mkStyle None None []) = text ->
     forallb StyleFlagsProperty.valid_word (StyleFlagsProperty.words text) = true ->
     Style_parse text = Some parsed ->
     StyleProperty.__set__ (VStyle (mkStyle (Some c) None [])) st
     = (Ok tt,
        mkState (<["text_style" := VStyle parsed]>
                   (<["text_color" := VColor c]> (rules st)))
                (heap st)
                (calls st ++ [Refresh false; Refresh false;
                              SetRule "text_color" (VColor c);
                              Refresh false;
                              SetRule "text_style" (VStyle parsed)]))) /\
  (forall c : Color,
     Style_str (mkStyle None None []) = "none" ->
     Style_parse "none" = Some Style_null ->
     rules (snd (StyleProperty.__set__ (VStyle (mkStyle (Some c) None [])) st))
     = <["text_style" := VStyle Style_null]>
         (<["text_color" := VColor c]> (rules st))) /\
  (forall (c : Color) (a : string * bool) (attrs : list (string * bool)),
     forallb StyleFlagsProperty.valid_word
       (StyleFlagsProperty.words (Style_str (mkStyle None None (a :: attrs)))) = false ->
     let out := StyleProperty.__set__ (VStyle (mkStyle (Some c) None (a :: attrs))) st in
     exists w,
       fst out = Raise (StyleValueError (UnknownWord w)) /\
       rules (snd out) = <["text_color" := VColor c]> (rules st)).
Proof.
  assert (Hcolor : forall (c : Color) (text : string) (parsed : Style),
     Style_str (mkStyle None None []) = text ->
     forallb StyleFlagsProperty.valid_word (StyleFlagsProperty.words text) = true ->
     Style_parse text = Some parsed ->
     StyleProperty.__set__ (VStyle (mkStyle (Some c) None [])) st
     = (Ok tt,
        mkState (<["text_style" := VStyle parsed]>
                   (<["text_color" := VColor c]> (rules st)))
                (heap st)
                (calls st ++ [Refresh false; Refresh false;
                              SetRule "text_color" (VColor c);
                              Refresh false;
                              SetRule "text_style" (VStyle parsed)]))).
  { intros c text parsed Htext Hwords Hparse.
    unfold StyleProperty.__set__, ColorProperty.__set__, StyleFlagsProperty.__set__,
      without_color, without_color_bool.
    run. cbn. rewrite Htext.
    rewrite (check_words_valid _ _ Hwords). cbn. rewrite Hparse. cbn.
    rewrite <- !app_assoc. reflexivity. }
  repeat apply conj.
  - unfold StyleProperty.__set__. run. cbn. simplify_map_eq. reflexivity.
  - unfold StyleProperty.__set__. run. cbn. simplify_map_eq. reflexivity.
  - unfold StyleProperty.__set__. run. cbn. simplify_map_eq. reflexivity.
  - unfold StyleProperty.__set__. run. cbn. rewrite <- ?app_assoc. reflexivity.
  - exact Hcolor.
  - intros c Htext Hparse.
    rewrite (Hcolor c "none" Style_null Htext eq_refl Hparse). reflexivity.
  - intros c a attrs Hbad. cbn zeta.
    destruct (check_words_invalid _ Hbad) as (w & _ & _ & Hrun).
    exists w.
    unfold StyleProperty.__set__, ColorProperty.__set__, StyleFlagsProperty.__set__,
      without_color, without_color_bool.
    run. cbn. rewrite Hrun. split; reflexivity.
Qed.

Lemma Style_write_decomposes_witness :
  let red := mkColor "red" 1 (Some 1%Z) None in
  let run v := StyleProperty.__set__ (H := Reference.external) v empty_state in
  rules (snd (run (VStyle (mkStyle (Some red) None []))))
  = <["text_style" := VStyle Style_null]> (<["text_color" := VColor red]> ∅) /\
  exists w,
    fst (run (VStyle (mkStyle (Some red) None [("dim", true)])))
    = Raise (StyleValueError (UnknownWord w)) /\
    rules (snd (run (VStyle (mkStyle (Some red) None [("dim", true)]))))
    = <["text_color" := VColor red]> ∅.
Proof.
  cbn zeta.
  destruct (Style_write_decomposes (H := Reference.external) empty_state)
    as (_ & _ & _ & Hnone & Hbad).
  split.
  - exact (Hnone (mkColor "red" 1 (Some 1%Z) None) eq_refl eq_refl).
  - exact (Hbad (mkColor "red" 1 (Some 1%Z) None) ("dim", true) [] eq_refl).
Defined.

(** * Properties of [import_app] *)

Lemma partition_without_sep (sep : ascii) (s : string) :
  ~ In sep (list_ascii_of_string s) ->
  Cli.partition sep s = (s, EmptyString, EmptyString).
Proof.
  induction s as [|c s IH]; cbn [Cli.partition list_ascii_of_string]; [reflexivity|].
  intros Hn. destruct (Ascii.eqb_spec c sep) as [E|_].
  - exfalso. apply Hn. left. exact E.
  - rewrite IH; [reflexivity|]. intros Hin. apply Hn. right. exact Hin.
Qed.

Lemma partition_at_first_sep (sep : ascii) (lib name : string) :
  ~ In sep (list_ascii_of_string lib) ->
  Cli.partition sep (String.append lib (String sep name))
  = (lib, String sep EmptyString, name).
Proof.
  induction lib as [|c lib IH]; intros Hn.
  - change (Cli.partition sep (String sep name)
            = (EmptyString, String sep EmptyString, name)).
    cbn [Cli.partition]. rewrite Ascii.eqb_refl. reflexivity.
  - change (Cli.partition sep (String c (String.append lib (String sep name)))
            = (String c lib, String sep EmptyString, name)).
    cbn [Cli.partition]. cbn [list_ascii_of_string] in Hn.
    destruct (Ascii.eqb_spec c sep) as [E|_].
    + exfalso. apply Hn. left. exact E.
    + rewrite IH; [reflexivity|]. intros Hin. apply Hn. right. exact Hin.
Qed.

(** With FILE.py:NAME, [import_app] goes by what NAME is bound to in the
    file and looks at nothing else: a class of [App] is called, and the
    instance made is returned, or the exception of its constructor goes
    through; any other object, an app or not, is returned as found; and a
    name the file does not bind is an [AppFail]. *)
Theorem import_app_by_name `{Cli.Host}
    (lib name : string) (global_vars : list (string * Cli.Obj))
    (sys_path : list string) :
  ~ In ":"%char (list_ascii_of_string lib) ->
  PyStr.endswith lib ".py" = true ->
  name <> "" ->
  Cli.run_file lib = Cli.Globals global_vars ->
  let out := Cli.import_app (String.append lib (String ":" name)) sys_path in
  (forall cls, Cli.lookup name global_vars = Some (Cli.Class cls) ->
     Cli.construct cls = Cli.Constructs ->
     out = (Cli.Done (Cli.Made cls), sys_path)) /\
  (forall cls, Cli.lookup name global_vars = Some (Cli.Class cls) ->
     Cli.construct cls = Cli.ConstructRaises ->
     out = (Cli.Raised, sys_path)) /\
  (forall app, Cli.lookup name global_vars = Some app ->
     Cli.is_App_class app = false ->
     out = (Cli.Done app, sys_path)) /\
  (forall id, Cli.lookup name global_vars = Some (Cli.Other id) ->
     out = (Cli.Done (Cli.Other id), sys_path)) /\
  (Cli.lookup name global_vars = None ->
     out = (Cli.AppFail (Cli.NotFound name lib), sys_path)).
Proof.
  intros Hc Hpy Hname Hrun. cbn zeta.
  unfold Cli.import_app. rewrite (partition_at_first_sep _ _ _ Hc), Hpy, Hrun.
  unfold Cli.app_of_file.
  assert (Hn : String.eqb name "" = false) by (apply String.eqb_neq; exact Hname).
  rewrite Hn. cbn [negb].
  repeat apply conj.
  - intros cls -> Hcls. cbn. rewrite Hcls. reflexivity.
  - intros cls -> Hcls. cbn. rewrite Hcls. reflexivity.
  - intros app -> Happ. destruct app; try discriminate Happ; reflexivity.
  - intros id ->. reflexivity.
  - intros ->. reflexivity.
Qed.

Lemma import_app_by_name_witness :
  Cli.import_app (H := Cli.reference_host) "demo.py:helper" []
  = (Cli.Done (Cli.Other 2), []) /\
  Cli.import_app (H := Cli.reference_host) "demo.py:Clock" []
  = (Cli.Done (Cli.Made (Cli.Subclass 1)), []) /\
  Cli.import_app (H := Cli.reference_host) "two.py:Timer" []
  = (Cli.Raised, []).
Proof.
  assert (Hc : ~ In ":"%char (list_ascii_of_string "demo.py")).
  { cbn. intros Hin. repeat (destruct Hin as [E|Hin]; [discriminate E|]). exact Hin. }
  assert (Hc2 : ~ In ":"%char (list_ascii_of_string "two.py")).
  { cbn. intros Hin. repeat (destruct Hin as [E|Hin]; [discriminate E|]). exact Hin. }
  split; [|split].
  - destruct (import_app_by_name (H := Cli.reference_host) "demo.py" "helper"
                [("App", Cli.Class Cli.App); ("Clock", Cli.Class (Cli.Subclass 1));
                 ("helper", Cli.Other 2)] [] Hc eq_refl)
      as (_ & _ & _ & Hother & _); [discriminate | reflexivity |].
    exact (Hother 2%N eq_refl).
  - destruct (import_app_by_name (H := Cli.reference_host) "demo.py" "Clock"
                [("App", Cli.Class Cli.App); ("Clock", Cli.Class (Cli.Subclass 1));
                 ("helper", Cli.Other 2)] [] Hc eq_refl)
      as (Hmade & _); [discriminate | reflexivity |].
    exact (Hmade _ eq_refl eq_refl).
  - destruct (import_app_by_name (H := Cli.reference_host) "two.py" "Timer"
                [("Clock", Cli.Class (Cli.Subclass 1));
                 ("Timer", Cli.Class (Cli.Subclass 3))] [] Hc2 eq_refl)
      as (_ & Hraises & _); [discriminate | reflexivity |].
    exact (Hraises _ eq_refl eq_refl).
Defined.

(** What [import_app] does with the object it found: an object that is no
    class of [App] is returned as it is, and a class is called. *)
Lemma instantiate_cases `{Cli.Host} (app : Cli.Obj) :
  (Cli.is_App_class app = false -> Cli.instantiate app = Cli.Done app) /\
  (forall cls, app = Cli.Class cls ->
     (Cli.construct cls = Cli.Constructs ->
      Cli.instantiate app = Cli.Done (Cli.Made cls)) /\
     (Cli.construct cls = Cli.ConstructRaises ->
      Cli.instantiate app = Cli.Raised)).
Proof.
  split.
  - intros Happ. destruct app; try discriminate Happ; reflexivity.
  - intros cls ->. split; intros Hcls; cbn; rewrite Hcls; reflexivity.
Qed.

(** With FILE.py alone, a variable called app is taken when the file binds
    one, whatever else it binds; without one, the file must hold exactly
    one app, instance or class: none and several are each an [AppFail]. The
    class [App] itself, which a file has when it imports it, is no app.
    The object taken is returned as it is unless it is a class of [App]:
    a class is called, and the instance made is returned, or the exception
    of its constructor goes through. *)
Theorem import_app_unnamed `{Cli.Host}
    (lib : string) (global_vars : list (string * Cli.Obj)) (sys_path : list string) :
  ~ In ":"%char (list_ascii_of_string lib) ->
  PyStr.endswith lib ".py" = true ->
  Cli.run_file lib = Cli.Globals global_vars ->
  let out := Cli.import_app lib sys_path in
  let apps := filter Cli.is_app (map snd global_vars) in
  let taken (app : Cli.Obj) :=
    (Cli.is_App_class app = false -> out = (Cli.Done app, sys_path)) /\
    (forall cls, app = Cli.Class cls ->
       (Cli.construct cls = Cli.Constructs ->
        out = (Cli.Done (Cli.Made cls), sys_path)) /\
       (Cli.construct cls = Cli.ConstructRaises ->
        out = (Cli.Raised, sys_path))) in
  (forall app, Cli.lookup "app" global_vars = Some app -> taken app) /\
  (Cli.lookup "app" global_vars = None ->
     (forall app, apps = [app] -> taken app) /\
     (apps = [] -> out = (Cli.AppFail (Cli.NoAppFound lib), sys_path)) /\
     (2 <= length apps -> out = (Cli.AppFail (Cli.MultipleApps lib), sys_path))) /\
  ~ In (Cli.Class Cli.App) apps.
Proof.
  intros Hc Hpy Hrun. cbn zeta.
  unfold Cli.import_app. rewrite (partition_without_sep _ _ Hc), Hpy, Hrun.
  unfold Cli.app_of_file. cbn [String.eqb negb].
  assert (Htaken : forall app : Cli.Obj,
    (Cli.is_App_class app = false ->
     (Cli.instantiate app, sys_path) = (Cli.Done app, sys_path)) /\
    (forall cls, app = Cli.Class cls ->
       (Cli.construct cls = Cli.Constructs ->
        (Cli.instantiate app, sys_path) = (Cli.Done (Cli.Made cls), sys_path)) /\
       (Cli.construct cls = Cli.ConstructRaises ->
        (Cli.instantiate app, sys_path) = (Cli.Raised, sys_path)))).
  { intros app. destruct (instantiate_cases app) as [Hplain Hclass]. split.
    - intros Happ. rewrite (Hplain Happ). reflexivity.
    - intros cls E. destruct (Hclass cls E) as [Hmade Hraised].
      split; intros Hcls; [rewrite (Hmade Hcls) | rewrite (Hraised Hcls)];
        reflexivity. }
  split; [|split].
  - intros app ->. apply Htaken.
  - intros ->. repeat apply conj.
    + intros app ->. apply Htaken.
    + intros ->. reflexivity.
    + intros Hlen.
      destruct (filter Cli.is_app (map snd global_vars)) as [|a [|b apps]];
        cbn in Hlen; try lia. reflexivity.
  - intros Hin. apply list_elem_of_In in Hin.
    apply list_elem_of_filter in Hin as [Hf _]. exact Hf.
Qed.

Lemma import_app_unnamed_witness :
  Cli.import_app (H := Cli.reference_host) "demo.py" []
  = (Cli.Done (Cli.Made (Cli.Subclass 1)), []) /\
  Cli.import_app (H := Cli.reference_host) "two.py" []
  = (Cli.AppFail (Cli.MultipleApps "two.py"), []).
Proof.
  split.
  - assert (Hc : ~ In ":"%char (list_ascii_of_string "demo.py")).
    { cbn. intros Hin. repeat (destruct Hin as [E|Hin]; [discriminate E|]). exact Hin. }
    destruct (import_app_unnamed (H := Cli.reference_host) "demo.py"
                [("App", Cli.Class Cli.App); ("Clock", Cli.Class (Cli.Subclass 1));
                 ("helper", Cli.Other 2)] [] Hc eq_refl eq_refl)
      as (_ & Hnone & _).
    destruct (Hnone eq_refl) as (Hone & _).
    destruct (Hone _ eq_refl) as (_ & Hclass).
    destruct (Hclass _ eq_refl) as (Hmade & _).
    exact (Hmade eq_refl).
  - assert (Hc : ~ In ":"%char (list_ascii_of_string "two.py")).
    { cbn. intros Hin. repeat (destruct Hin as [E|Hin]; [discriminate E|]). exact Hin. }
    destruct (import_app_unnamed (H := Cli.reference_host) "two.py"
                [("Clock", Cli.Class (Cli.Subclass 1));
                 ("Timer", Cli.Class (Cli.Subclass 3))] [] Hc eq_refl eq_refl)
      as (_ & Hnone & _).
    destruct (Hnone eq_refl) as (_ & _ & Hmany).
    apply Hmany. exact (le_n 2).
Defined.


